(** * Europeana search client: query compiler, query builder, pagination

    A shallow embedding of [europeana/client.py]: the Lucene query string
    compiler [build_query_string], the fluent [QueryBuilder], the single
    page fetch [search_raw] and the generators [search_all_raw] and
    [search_all], with the properties of the specification stated over
    them.

    Python values are embedded as follows.  [int] is [Z]; [str] is
    [string]; [Optional[T]] is [option T]; a [dict] whose iteration order
    is observable (the filter map) is an association list with the
    insertion-order update [dict_set]; a [dict] used as a bag of
    parameters (the HTTP parameters, the keyword arguments) is a [gmap];
    mutable objects (a builder, its filter dict, its facet list) live in
    a store and are referred to by location, so that [copy.deepcopy] and
    in-place mutation keep their aliasing behaviour; an exception is the
    [Raise] result of a store-passing computation; a generator is the state
    it is suspended in together with the function [next] that resumes
    it. *)

From Stdlib Require Import ZArith String Ascii List Lia.
From stdpp Require Import base option list strings gmap pretty.

Local Open Scope string_scope.
Local Open Scope list_scope.
Local Open Scope Z_scope.

(** ** Python string primitives *)

Module Py.

(** The one-character string holding a double quote. *)
Definition dquote : string := String "034"%char EmptyString.

(** Truthiness of a [str]: only the empty string is falsy. *)
Definition str_truthy (s : string) : bool :=
  match s with
  | EmptyString => false
  | String _ _ => true
  end.

(** Truthiness of an [Optional[str]]: [None] and the empty string are
    falsy. *)
Definition opt_str_truthy (o : option string) : bool :=
  match o with
  | None => false
  | Some s => str_truthy s
  end.

(** [s.startswith(p)]. *)
Definition startswith (s p : string) : bool := String.prefix p s.

(** [s.endswith(p)]: some suffix of [s] is [p]. *)
Fixpoint endswith (s p : string) : bool :=
  String.eqb s p
  || match s with
     | EmptyString => false
     | String _ s' => endswith s' p
     end.

(** [sub in s] on strings: [sub] occurs at some position of [s]. *)
Fixpoint contains (s sub : string) : bool :=
  String.prefix sub s
  || match s with
     | EmptyString => false
     | String _ s' => contains s' sub
     end.

(** [sep.join(parts)]. *)
Definition join (sep : string) (parts : list string) : string :=
  String.concat sep parts.

(** [str(b)] for a [bool]. *)
Definition str_bool (b : bool) : string := if b then "True" else "False".

(** [str(b).lower()] for a [bool]. *)
Definition str_bool_lower (b : bool) : string :=
  if b then "true" else "false".

(** [str(n)] for an [int]: the decimal numeral. *)
Definition str_int (n : Z) : string := pretty n.

(** [x in l] for a list of strings (equality of [str] values, which is
    also how a [StrEnum] member compares with a [str]). *)
Definition str_in (x : string) (l : list string) : bool :=
  existsb (String.eqb x) l.

End Py.

(** ** Field vocabulary *)

(** A member of a [StrEnum] or [Enum] class of the module: its class, its
    name and its [.value], always a string in this module. *)
Record EnumMember := { enum_class : string; enum_name : string; enum_value : string }.

(** [repr(m)] of an enum member. *)
Definition enum_repr (m : EnumMember) : string :=
  "<" +:+ enum_class m +:+ "." +:+ enum_name m +:+ ": '" +:+ enum_value m +:+ "'>".

Module AggregateField.
Definition mk (n v : string) : EnumMember :=
  {| enum_class := "AggregateField"; enum_name := n; enum_value := v |}.
Definition TITLE := mk "TITLE" "title".
Definition SUBJECT := mk "SUBJECT" "subject".
Definition WHO := mk "WHO" "who".
Definition WHAT := mk "WHAT" "what".
Definition WHEN := mk "WHEN" "when".
Definition WHERE := mk "WHERE" "where".
Definition TEXT := mk "TEXT" "text".
End AggregateField.

Module SearchField.
Definition mk (n v : string) : EnumMember :=
  {| enum_class := "SearchField"; enum_name := n; enum_value := v |}.
Definition PROXY_DC_CREATOR := mk "PROXY_DC_CREATOR" "proxy_dc_creator".
Definition PROXY_DC_CONTRIBUTOR := mk "PROXY_DC_CONTRIBUTOR" "proxy_dc_contributor".
Definition PROXY_DC_SUBJECT := mk "PROXY_DC_SUBJECT" "proxy_dc_subject".
Definition PROXY_DC_TYPE := mk "PROXY_DC_TYPE" "proxy_dc_type".
Definition PROXY_DC_RIGHTS := mk "PROXY_DC_RIGHTS" "proxy_dc_rights".
Definition PROXY_DC_TITLE := mk "PROXY_DC_TITLE" "proxy_dc_title".
Definition PROXY_DCTERMS_MEDIUM := mk "PROXY_DCTERMS_MEDIUM" "proxy_dcterms_medium".
Definition PROXY_DCTERMS_SPATIAL := mk "PROXY_DCTERMS_SPATIAL" "proxy_dcterms_spatial".
Definition TYPE := mk "TYPE" "TYPE".
Definition YEAR := mk "YEAR" "YEAR".
Definition PROVIDER := mk "PROVIDER" "PROVIDER".
Definition DATA_PROVIDER := mk "DATA_PROVIDER" "DATA_PROVIDER".
Definition RIGHTS := mk "RIGHTS" "RIGHTS".
Definition COUNTRY := mk "COUNTRY" "COUNTRY".
Definition LANGUAGE := mk "LANGUAGE" "LANGUAGE".
End SearchField.

Module MediaType.
Definition mk (n v : string) : EnumMember :=
  {| enum_class := "MediaType"; enum_name := n; enum_value := v |}.
Definition IMAGE := mk "IMAGE" "IMAGE".
Definition SOUND := mk "SOUND" "SOUND".
Definition VIDEO := mk "VIDEO" "VIDEO".
Definition TEXT := mk "TEXT" "TEXT".
Definition THREE_D := mk "THREE_D" "3D".
End MediaType.

Module Profile.
Definition mk (n v : string) : EnumMember :=
  {| enum_class := "Profile"; enum_name := n; enum_value := v |}.
Definition MINIMAL := mk "MINIMAL" "minimal".
Definition STANDARD := mk "STANDARD" "standard".
Definition RICH := mk "RICH" "rich".
Definition FACETS := mk "FACETS" "facets".
End Profile.

Module Reusability.
Definition mk (n v : string) : EnumMember :=
  {| enum_class := "Reusability"; enum_name := n; enum_value := v |}.
Definition OPEN := mk "OPEN" "open".
Definition RESTRICTED := mk "RESTRICTED" "restricted".
Definition PERMISSION := mk "PERMISSION" "permission".
End Reusability.

(** The facetable fields, in the order of the source list. *)
Definition FACETABLE_FIELDS : list EnumMember :=
  [ SearchField.PROXY_DC_CREATOR;
    SearchField.PROXY_DC_CONTRIBUTOR;
    SearchField.PROXY_DC_SUBJECT;
    SearchField.PROXY_DC_TYPE;
    SearchField.PROXY_DC_RIGHTS;
    SearchField.PROXY_DCTERMS_MEDIUM;
    SearchField.PROXY_DCTERMS_SPATIAL;
    SearchField.TYPE;
    SearchField.PROVIDER;
    SearchField.DATA_PROVIDER;
    SearchField.RIGHTS;
    SearchField.COUNTRY;
    SearchField.LANGUAGE ].

Definition DEFAULT_ROWS : Z := 100.
Definition MAX_ROWS : Z := 100.

(** ** The query string compiler *)

(** A filter value: a [str], a member of one of the enums, or another
    scalar that [str()] renders ([bool], [int]). *)
Inductive Value :=
| VStr (s : string)
| VEnum (m : EnumMember)
| VBool (b : bool)
| VInt (n : Z).

(** The filter map: a [dict] from field name to value, in insertion
    order.  A [StrEnum] key is the string that is its value. *)
Definition FilterMap := list (string * Value).

(** [d[k] = v]: an existing key keeps its position and takes the new
    value, a new key goes last. *)
Fixpoint dict_set (d : FilterMap) (k : string) (v : Value) : FilterMap :=
  match d with
  | [] => [(k, v)]
  | (k', v') :: d' =>
      if String.eqb k' k then (k', v) :: d' else (k', v') :: dict_set d' k v
  end.

(** [value.value if hasattr(value, "value") else value], then [str(...)]. *)
Definition value_str (v : Value) : string :=
  match v with
  | VStr s => s
  | VEnum m => enum_value m
  | VBool b => Py.str_bool b
  | VInt n => Py.str_int n
  end.

(** The test that guards the quoting:
    [" " in value and not (value.startswith('"') and value.endswith('"'))]. *)
Definition needs_quotes (value : string) : bool :=
  Py.contains value " "
  && negb (Py.startswith value Py.dquote && Py.endswith value Py.dquote).

(** The body of the loop over [filters.items()] for one entry: the term
    appended to [query_parts]. *)
Definition filter_term (field : string) (value : Value) : string :=
  let value := value_str value in
  let value := if needs_quotes value
               then Py.dquote +:+ value +:+ Py.dquote
               else value in
  field +:+ ":" +:+ value.

(** [build_query_string(text, filters)]: [query_parts] is threaded through
    the two conditionals and the loop as the source does, each [append]
    adding at the end. *)
Definition build_query_string
    (text : option string) (filters : option FilterMap) : string :=
  let query_parts : list string := [] in
  let query_parts :=
    match text with
    | Some t => if Py.str_truthy t then query_parts ++ [t] else query_parts
    | None => query_parts
    end in
  let query_parts :=
    match filters with
    | Some ((_ :: _) as items) =>
        fold_left (fun parts '(field, value) => parts ++ [filter_term field value])
                  items query_parts
    | _ => query_parts
    end in
  match query_parts with
  | [] => EmptyString
  | _ => Py.join " AND " query_parts
  end.


(** ** Objects, the store and the transport *)

(** A reference to a mutable object of the store. *)
Definition loc := positive.

(** An argument annotated [Union[str, E]] for an enum class [E]. *)
Inductive StrOrEnum :=
| AsStr (s : string)
| AsEnum (m : EnumMember).

(** [str(x)] of such an argument when [E] is a [StrEnum], and [x.value]
    when it is a member of [E]: both are the member's value. *)
Definition str_or_value (x : StrOrEnum) : string :=
  match x with
  | AsStr s => s
  | AsEnum m => enum_value m
  end.

(** Truthiness of such an argument: an enum member is truthy, a string is
    truthy unless empty. *)
Definition str_or_enum_truthy (x : StrOrEnum) : bool :=
  match x with
  | AsStr s => Py.str_truthy s
  | AsEnum _ => true
  end.

(** The exceptions the modelled code raises: [ValueError] from the builder
    and [httpx.HTTPStatusError] from [Response.raise_for_status]; and
    [TypeError] and [AttributeError], which the [from_dict] constructors
    of the models raise on a raw record that is not of the shape they
    read (a key holding [null] where a list is iterated, a string where
    an object is expected). *)
Inductive Exn :=
| ValueError (msg : string)
| HTTPStatusError (status_code : Z)
| TypeError (msg : string)
| AttributeError (msg : string).

(** The result of a call: a value or a raised exception. *)
Inductive Res (A : Type) :=
| Ret (a : A)
| Raise (e : Exn).
Arguments Ret {A} a.
Arguments Raise {A} e.

(** One HTTP GET as the transport sees it: the URL and the parameters. *)
Record HttpRequest := {
  req_url : string;
  req_params : gmap string string
}.

(** [EuropeanaClient]: the key and the URL; its [httpx.Client] is the
    transport of the section below. *)
Record EuropeanaClient := {
  api_key : string;
  base_url : string
}.

Definition DEFAULT_BASE_URL : string :=
  "https://api.europeana.eu/record/v2/search.json".

(** What one call of [next()] on a generator produces. *)
Inductive Outcome (X : Type) :=
| Yield (x : X)
| StopIteration
| Raised (e : Exn).
Arguments Yield {X} x.
Arguments StopIteration {X}.
Arguments Raised {X} e.

(** The frame of the generator between two calls of [next()]: not yet
    started; suspended at the [yield] inside the [for] loop, with the
    locals [cursor], [records_fetched], [results] and the items the
    loop has still to visit; or finished (returned or raised). *)
Inductive GenState (R X : Type) :=
| GenCreated
| GenSuspended (cursor : string) (records_fetched : Z) (results : R) (rest : list X)
| GenClosed.
Arguments GenCreated {R X}.
Arguments GenSuspended {R X} cursor records_fetched results rest.
Arguments GenClosed {R X}.

(** How a consumer that keeps calling [next()] ends: the generator
    stopped, it raised, or the consumer gave up with the generator still
    alive. *)
Inductive DrainEnd (R X : Type) :=
| Exhausted
| Failed (e : Exn)
| StillRunning (g : GenState R X).
Arguments Exhausted {R X}.
Arguments Failed {R X} e.
Arguments StillRunning {R X} g.

Section Model.

(** [Float] stands for Python's [float] and [float_str] for its
    rendering in an f-string; [Item] is a raw JSON object of the
    response. *)
Context {Float Item : Type}.
Variable float_str : Float -> string.

(** [QueryBuilder]: the attributes set by [__init__].  [_filters] and
    [_facets] hold references to the dict and the list objects. *)
Record QueryBuilder := {
  _filters : loc;
  _text_query : option string;
  _geographic : option (Float * Float * Float);
  _facets : loc;
  _profile : StrOrEnum;
  _rows : Z;
  _reusability : option StrOrEnum;
  _media_flag : option bool;
  _thumbnail_flag : option bool
}.

#[export] Instance QueryBuilder_inhabited : Inhabited QueryBuilder :=
  populate {| _filters := 1%positive; _text_query := None; _geographic := None;
              _facets := 1%positive; _profile := AsEnum Profile.RICH;
              _rows := DEFAULT_ROWS; _reusability := None;
              _media_flag := None; _thumbnail_flag := None |}.

(** The store: builder objects, dict objects, list objects, and the
    requests the transport has been sent so far, oldest first. *)
Record World := {
  builders : gmap loc QueryBuilder;
  dicts : gmap loc FilterMap;
  lists : gmap loc (list string);
  sent : list HttpRequest
}.

Definition empty_world : World :=
  {| builders := ∅; dicts := ∅; lists := ∅; sent := [] |}.

Definition set_builder (l : loc) (b : QueryBuilder) (w : World) : World :=
  {| builders := <[l := b]> (builders w); dicts := dicts w;
     lists := lists w; sent := sent w |}.

Definition set_dict (l : loc) (d : FilterMap) (w : World) : World :=
  {| builders := builders w; dicts := <[l := d]> (dicts w);
     lists := lists w; sent := sent w |}.

Definition set_list (l : loc) (x : list string) (w : World) : World :=
  {| builders := builders w; dicts := dicts w;
     lists := <[l := x]> (lists w); sent := sent w |}.

Definition log_request (r : HttpRequest) (w : World) : World :=
  {| builders := builders w; dicts := dicts w;
     lists := lists w; sent := sent w ++ [r] |}.

(** Reading through a reference. *)
Definition builder_at (w : World) (l : loc) : QueryBuilder := builders w !!! l.
Definition dict_at (w : World) (l : loc) : FilterMap := dicts w !!! l.
Definition list_at (w : World) (l : loc) : list string := lists w !!! l.

(** The decoded JSON body: the keys [search_raw] reads, each possibly
    missing. *)
Record JsonBody := {
  js_items : option (list Item);
  js_totalResults : option Z;
  js_nextCursor : option string;
  js_facets : option (list Item)
}.

(** [httpx.Response]. *)
Record Response := {
  status_code : Z;
  json : JsonBody
}.

(** [Response.is_success] of httpx: a 2xx status. *)
Definition is_success (r : Response) : bool :=
  (200 <=? status_code r) && (status_code r <=? 299).

(** [Response.raise_for_status()] of httpx. *)
Definition raise_for_status (r : Response) : Res unit :=
  if is_success r then Ret tt else Raise (HTTPStatusError (status_code r)).

(** The remote end: its answer to a request, given the requests it has
    answered before. *)
Variable http_get : list HttpRequest -> HttpRequest -> Response.

(** [SearchResults]. *)
Record SearchResults := {
  items : list Item;
  total_results : Z;
  next_cursor : option string;
  facets_of : option (list Item);
  query : option string
}.

(** *** QueryBuilder *)

(** [QueryBuilder()]: a new dict, a new list, a new builder. *)
Definition QueryBuilder_init (w : World) : loc * World :=
  let d := fresh (dom (dicts w)) in
  let l := fresh (dom (lists w)) in
  let self := fresh (dom (builders w)) in
  let w := set_dict d [] w in
  let w := set_list l [] w in
  (self,
   set_builder self
     {| _filters := d; _text_query := None; _geographic := None;
        _facets := l; _profile := AsEnum Profile.RICH; _rows := DEFAULT_ROWS;
        _reusability := None; _media_flag := None; _thumbnail_flag := None |} w).

(** [self._filters[field] = value; return self], the body shared by the
    filter setters. *)
Definition set_filter (field : string) (value : Value) (self : loc) (w : World)
  : loc * World :=
  let d := _filters (builder_at w self) in
  (self, set_dict d (dict_set (dict_at w d) field value) w).

Definition who (name : string) := set_filter (enum_value AggregateField.WHO) (VStr name).
Definition where_ (place : string) := set_filter (enum_value AggregateField.WHERE) (VStr place).
Definition what (topic : string) := set_filter (enum_value AggregateField.WHAT) (VStr topic).
Definition title (t : string) := set_filter (enum_value AggregateField.TITLE) (VStr t).
Definition when (d : string) := set_filter (enum_value AggregateField.WHEN) (VStr d).
Definition text (t : string) := set_filter (enum_value AggregateField.TEXT) (VStr t).

(** [media_type]: a [MediaType] member is replaced by its value. *)
Definition media_type (m : StrOrEnum) :=
  set_filter (enum_value SearchField.TYPE) (VStr (str_or_value m)).

(** Update of one attribute of the builder object. *)
Definition update_builder (f : QueryBuilder -> QueryBuilder) (self : loc) (w : World)
  : loc * World :=
  (self, set_builder self (f (builder_at w self)) w).

Definition text_query (q : string) :=
  update_builder (fun b =>
    {| _filters := _filters b; _text_query := Some q; _geographic := _geographic b;
       _facets := _facets b; _profile := _profile b; _rows := _rows b;
       _reusability := _reusability b; _media_flag := _media_flag b;
       _thumbnail_flag := _thumbnail_flag b |}).

Definition geographic (lat lon radius_km : Float) :=
  update_builder (fun b =>
    {| _filters := _filters b; _text_query := _text_query b;
       _geographic := Some (lat, lon, radius_km);
       _facets := _facets b; _profile := _profile b; _rows := _rows b;
       _reusability := _reusability b; _media_flag := _media_flag b;
       _thumbnail_flag := _thumbnail_flag b |}).

Definition profile (p : StrOrEnum) :=
  update_builder (fun b =>
    {| _filters := _filters b; _text_query := _text_query b; _geographic := _geographic b;
       _facets := _facets b; _profile := p; _rows := _rows b;
       _reusability := _reusability b; _media_flag := _media_flag b;
       _thumbnail_flag := _thumbnail_flag b |}).

(** The assignment [b._rows = n]. *)
Definition with_rows (n : Z) (b : QueryBuilder) : QueryBuilder :=
  {| _filters := _filters b; _text_query := _text_query b; _geographic := _geographic b;
     _facets := _facets b; _profile := _profile b; _rows := n;
     _reusability := _reusability b; _media_flag := _media_flag b;
     _thumbnail_flag := _thumbnail_flag b |}.

(** [rows(count)]: [self._rows = min(count, MAX_ROWS)]. *)
Definition rows (count : Z) := update_builder (with_rows (Z.min count MAX_ROWS)).

Definition reusability (level : StrOrEnum) :=
  update_builder (fun b =>
    {| _filters := _filters b; _text_query := _text_query b; _geographic := _geographic b;
       _facets := _facets b; _profile := _profile b; _rows := _rows b;
       _reusability := Some level; _media_flag := _media_flag b;
       _thumbnail_flag := _thumbnail_flag b |}).

Definition with_media (has_media : bool) :=
  update_builder (fun b =>
    {| _filters := _filters b; _text_query := _text_query b; _geographic := _geographic b;
       _facets := _facets b; _profile := _profile b; _rows := _rows b;
       _reusability := _reusability b; _media_flag := Some has_media;
       _thumbnail_flag := _thumbnail_flag b |}).

Definition with_thumbnails (has_thumbnails : bool) :=
  update_builder (fun b =>
    {| _filters := _filters b; _text_query := _text_query b; _geographic := _geographic b;
       _facets := _facets b; _profile := _profile b; _rows := _rows b;
       _reusability := _reusability b; _media_flag := _media_flag b;
       _thumbnail_flag := Some has_thumbnails |}).

(** [str(FACETABLE_FIELDS)]: the list's repr. *)
Definition facetable_repr : string :=
  "[" +:+ Py.join ", " (map enum_repr FACETABLE_FIELDS) +:+ "]".

(** The message of the [ValueError] of [facets]. *)
Definition not_facetable_msg (field_str : string) : string :=
  "Field '" +:+ field_str +:+ "' is not facetable. Valid facetable fields: "
  +:+ facetable_repr.

(** [field_str in FACETABLE_FIELDS]: a member of the list equals the
    string when its value does. *)
Definition is_facetable (field_str : string) : bool :=
  Py.str_in field_str (map enum_value FACETABLE_FIELDS).

(** The loop of [facets] over [field_names]: each accepted field is
    appended to the list object before the next one is examined. *)
Fixpoint facets_loop (field_names : list StrOrEnum) (self : loc) (w : World)
  : Res unit * World :=
  match field_names with
  | [] => (Ret tt, w)
  | field :: field_names' =>
      let field_str := str_or_value field in
      if negb (is_facetable field_str)
      then (Raise (ValueError (not_facetable_msg field_str)), w)
      else
        let l := _facets (builder_at w self) in
        facets_loop field_names' self (set_list l (list_at w l ++ [field_str]) w)
  end.

(** The method [facets], called with the fields [field_names]. *)
Definition facets (field_names : list StrOrEnum) (self : loc) (w : World)
  : Res loc * World :=
  match facets_loop field_names self w with
  | (Ret _, w') => (Ret self, w')
  | (Raise e, w') => (Raise e, w')
  end.

(** [get_query_string()]. *)
Definition get_query_string (self : loc) (w : World) : string :=
  let b := builder_at w self in
  build_query_string (_text_query b) (Some (dict_at w (_filters b))).

(** [copy.deepcopy(query)]: the dict and the list are copied into new
    objects and the new builder refers to the copies; strings, numbers
    and enum members are immutable and copied by value. *)
Definition deepcopy (query : loc) (w : World) : loc * World :=
  let b := builder_at w query in
  let d := fresh (dom (dicts w)) in
  let l := fresh (dom (lists w)) in
  let page_query := fresh (dom (builders w)) in
  let w1 := set_dict d (dict_at w (_filters b)) w in
  let w2 := set_list l (list_at w (_facets b)) w1 in
  (page_query,
   set_builder page_query
     {| _filters := d; _text_query := _text_query b; _geographic := _geographic b;
        _facets := l; _profile := _profile b; _rows := _rows b;
        _reusability := _reusability b; _media_flag := _media_flag b;
        _thumbnail_flag := _thumbnail_flag b |} w2).

(** *** One page: [search_raw] and [search] *)

(** The local [facets] of [search_raw]:
    [query._facets if query._facets else None]. *)
Definition requested_facets (query : loc) (w : World) : option (list string) :=
  match list_at w (_facets (builder_at w query)) with
  | [] => None
  | fs => Some fs
  end.

(** A conditional assignment [if c: params[key] = v], with [value] the
    [v] to store when the condition holds and [None] when it does not. *)
Definition param_if (key : string) (value : option string)
    (params : gmap string string) : gmap string string :=
  match value with
  | Some v => <[key := v]> params
  | None => params
  end.

(** The [qf] parameter of a geographic constraint. *)
Definition distance_qf (g : Float * Float * Float) : string :=
  let '(lat, lon, radius) := g in
  "distance(coverageLocation," +:+ float_str lat +:+ "," +:+ float_str lon
  +:+ "," +:+ float_str radius +:+ ")".

(** The first half of [search_raw(query, cursor, **kwargs)], down to
    [params.update(kwargs)]: the parameters of the request, built in
    the order of the source.  [facets], [geographic] (a tuple) and the
    two flags are tested for presence, [reusability] for truthiness; a
    keyword argument replaces a computed parameter of the same name. *)
Definition search_raw_params (self : EuropeanaClient) (query : loc)
    (cursor : string) (kwargs : gmap string string) (w : World)
  : gmap string string :=
  let query_str := get_query_string query w in
  let b := builder_at w query in
  let rows := _rows b in
  let facets := requested_facets query w in
  let profile := str_or_value (_profile b) in
  let geographic := _geographic b in
  let reusability := _reusability b in
  let media := _media_flag b in
  let thumbnail := _thumbnail_flag b in
  let params : gmap string string :=
    <["profile" := profile]>
    (<["wskey" := api_key self]>
    (<["cursor" := cursor]>
    (<["rows" := Py.str_int (Z.min rows MAX_ROWS)]>
    (<["query" := if Py.str_truthy query_str then query_str else "*:*"]> ∅)))) in
  let params := param_if "facet" (Py.join "," <$> facets) params in
  let params := param_if "qf" (distance_qf <$> geographic) params in
  let params :=
    param_if "reusability"
             (match reusability with
              | Some r => if str_or_enum_truthy r then Some (str_or_value r) else None
              | None => None
              end) params in
  let params := param_if "media" (Py.str_bool_lower <$> media) params in
  let params := param_if "thumbnail" (Py.str_bool_lower <$> thumbnail) params in
  kwargs ∪ params.

(** [search_raw(query, cursor, **kwargs)]: the request is sent, and
    recorded as sent, before [raise_for_status] examines the answer;
    the results are read from the decoded body with the defaults of
    the source. *)
Definition search_raw (self : EuropeanaClient) (query : loc) (cursor : string)
    (kwargs : gmap string string) (w : World) : Res SearchResults * World :=
  let query_str := get_query_string query w in
  let facets := requested_facets query w in
  let params := search_raw_params self query cursor kwargs w in
  let request := {| req_url := base_url self; req_params := params |} in
  let response := http_get (sent w) request in
  let w := log_request request w in
  match raise_for_status response with
  | Raise e => (Raise e, w)
  | Ret _ =>
      let data := json response in
      (Ret {| items := default [] (js_items data);
              total_results := default 0 (js_totalResults data);
              next_cursor := js_nextCursor data;
              facets_of := match facets with
                           | Some _ => Some (default [] (js_facets data))
                           | None => None
                           end;
              query := Some query_str |}, w)
  end.

(** [EItem] is [EuropeanaItem] and [EFacet] is [Facet].  Their
    [from_dict] constructors read an untyped raw record and raise on one
    that is not of the shape they expect, so they are taken here as
    functions that return the parsed value or raise; the code of this
    file never looks inside an item. *)
Context {EItem EFacet : Type}.
Variable item_from_dict : Item -> Res EItem.
Variable facet_from_dict : Item -> Res EFacet.

(** A list comprehension [[f(x) for x in xs]] whose [f] may raise: the
    elements are converted from left to right, and the first exception
    ends the comprehension and is the one raised. *)
Fixpoint comprehension {A B : Type} (f : A -> Res B) (xs : list A)
  : Res (list B) :=
  match xs with
  | [] => Ret []
  | x :: xs' =>
      match f x with
      | Raise e => Raise e
      | Ret y =>
          match comprehension f xs' with
          | Raise e => Raise e
          | Ret ys => Ret (y :: ys)
          end
      end
  end.

(** [StructuredSearchResults]. *)
Record StructuredSearchResults := {
  s_items : list EItem;
  s_total_results : Z;
  s_next_cursor : option string;
  s_facets : option (list EFacet);
  s_query : option string
}.

(** [StructuredSearchResults.from_search_results(r)], [parse_items]
    left at its default: the items are parsed first, all of them, then
    the facets when there are any; an exception raised by a [from_dict]
    propagates. *)
Definition from_search_results (r : SearchResults) : Res StructuredSearchResults :=
  match comprehension item_from_dict (items r) with
  | Raise e => Raise e
  | Ret parsed_items =>
      let facets :=
        match facets_of r with
        | Some ((_ :: _) as fs) =>
            match comprehension facet_from_dict fs with
            | Raise e => Raise e
            | Ret parsed_facets => Ret (Some parsed_facets)
            end
        | _ => Ret None
        end in
      match facets with
      | Raise e => Raise e
      | Ret facets =>
          Ret {| s_items := parsed_items;
                 s_total_results := total_results r;
                 s_next_cursor := next_cursor r;
                 s_facets := facets;
                 s_query := query r |}
      end
  end.

(** [search(query, cursor, **kwargs)]: the raw search, then the parsing
    of its results, either of which may raise; the request has been sent
    by the time the parsing starts. *)
Definition search (self : EuropeanaClient) (query : loc) (cursor : string)
    (kwargs : gmap string string) (w : World)
  : Res StructuredSearchResults * World :=
  match search_raw self query cursor kwargs w with
  | (Ret raw_results, w') => (from_search_results raw_results, w')
  | (Raise e, w') => (Raise e, w')
  end.

(** *** The pagination generators *)

(** Truthiness of [max_records : Optional[int]]: [None] and [0] are
    falsy, every other integer is truthy. *)
Definition budget_truthy (max_records : option Z) : bool :=
  match max_records with
  | Some m => negb (m =? 0)
  | None => false
  end.

Section Loop.

(** [search_all_raw] and [search_all] have the same body up to the
    call that fetches the page ([self.search_raw] or [self.search])
    and the class of [results]; the body is written once, over that
    call and the two attributes of [results] it reads. *)
Context {R X : Type}.
Variable fetch_page : loc -> string -> World -> Res R * World.
Variable results_items : R -> list X.
Variable results_next_cursor : R -> option string.
Variable query : loc.
Variable max_records : option Z.

(** The rows of the next request, or [None] where the loop breaks:
    [[
      if max_records:
          remaining = max_records - records_fetched
          if remaining <= 0: break
          rows = min(DEFAULT_ROWS, remaining)
      else:
          rows = DEFAULT_ROWS
    ]] *)
Definition page_rows (records_fetched : Z) : option Z :=
  if budget_truthy max_records then
    let remaining := default 0 max_records - records_fetched in
    if remaining <=? 0 then None else Some (Z.min DEFAULT_ROWS remaining)
  else Some DEFAULT_ROWS.

(** The test after the [for] loop:
    [not results.next_cursor or len(results.items) == 0]. *)
Definition last_page (results : R) : bool :=
  negb (Py.opt_str_truthy (results_next_cursor results))
  || (Z.of_nat (length (results_items results)) =? 0).

(** The test after a [yield]:
    [max_records and records_fetched >= max_records]. *)
Definition budget_reached (records_fetched : Z) : bool :=
  budget_truthy max_records && (default 0 max_records <=? records_fetched).

(** The body of [while True] from its top, up to the first [yield] or
    the end of the generator.  A page without items runs the [for]
    loop zero times and then meets the test [last_page], true for
    it, so the body is never entered twice in one step. *)
Definition loop_top (cursor : string) (records_fetched : Z) (w : World)
  : Outcome X * GenState R X * World :=
  match page_rows records_fetched with
  | None => (StopIteration, GenClosed, w)
  | Some rows =>
      let '(page_query, w) := deepcopy query w in
      let w := set_builder page_query (with_rows rows (builder_at w page_query)) w in
      match fetch_page page_query cursor w with
      | (Raise e, w) => (Raised e, GenClosed, w)
      | (Ret results, w) =>
          match results_items results with
          | item :: rest =>
              (Yield item, GenSuspended cursor records_fetched results rest, w)
          | [] => (StopIteration, GenClosed, w)
          end
      end
  end.

(** Resuming after a [yield]: count the record, test the budget, go
    on with the [for] loop, and after its last item either break or
    take the new cursor and go back to the top of the [while]. *)
Definition resume (cursor : string) (records_fetched : Z) (results : R)
    (rest : list X) (w : World) : Outcome X * GenState R X * World :=
  let records_fetched := records_fetched + 1 in
  if budget_reached records_fetched then (StopIteration, GenClosed, w)
  else
    match rest with
    | item :: rest' =>
        (Yield item, GenSuspended cursor records_fetched results rest', w)
    | [] =>
        if last_page results then (StopIteration, GenClosed, w)
        else loop_top (default EmptyString (results_next_cursor results))
                      records_fetched w
    end.

(** [next(gen)]. *)
Definition next (g : GenState R X) (w : World)
  : Outcome X * GenState R X * World :=
  match g with
  | GenCreated => loop_top "*" 0 w
  | GenSuspended cursor records_fetched results rest =>
      resume cursor records_fetched results rest w
  | GenClosed => (StopIteration, GenClosed, w)
  end.

(** A consumer calling [next()] at most [fuel] times: the items it
    received, how it ended, and the store it leaves. *)
Fixpoint drain (fuel : nat) (g : GenState R X) (w : World)
  : list X * DrainEnd R X * World :=
  match fuel with
  | O => ([], StillRunning g, w)
  | S fuel' =>
      match next g w with
      | (Yield x, g', w') =>
          let '(xs, e, w'') := drain fuel' g' w' in (x :: xs, e, w'')
      | (StopIteration, _, w') => ([], Exhausted, w')
      | (Raised e, _, w') => ([], Failed e, w')
      end
  end.

End Loop.

(** The generator of [search_all_raw(query, max_records)]. *)
Definition search_all_raw (self : EuropeanaClient) (query : loc)
    (max_records : option Z) :=
  next (fun page_query cursor => search_raw self page_query cursor ∅)
       items next_cursor query max_records.

(** The generator of [search_all(query, max_records)]. *)
Definition search_all (self : EuropeanaClient) (query : loc)
    (max_records : option Z) :=
  next (fun page_query cursor => search self page_query cursor ∅)
       s_items s_next_cursor query max_records.

End Model.

(** ** Concrete remotes and a concrete store, for the examples *)

Module Fixture.

(** The rendering of coordinates is immaterial to the examples. *)
Definition float_str (_ : unit) : string := "0.0".

Definition client : EuropeanaClient :=
  {| api_key := "KEY"; base_url := DEFAULT_BASE_URL |}.

(** A store holding one freshly constructed builder, and that builder. *)
Definition builder : loc := (@QueryBuilder_init unit empty_world).1.
Definition store : @World unit := (@QueryBuilder_init unit empty_world).2.

(** A successful response carrying the items and the cursor given; the
    items are numbers. *)
Definition page (its : list nat) (cursor : option string) : @Response nat :=
  {| status_code := 200;
     json := {| js_items := Some its; js_totalResults := Some 300;
                js_nextCursor := cursor; js_facets := None |} |}.

(** A remote with 300 records: three pages of 100 items, each with a
    cursor, then a page with no item and no cursor.  It serves 100 items
    whatever number of rows is asked for. *)
Definition three_pages (answered : list HttpRequest) (_ : HttpRequest)
  : @Response nat :=
  let n := length answered in
  if (n <? 3)%nat
  then page (seq (100 * n) 100) (Some ("cursor" +:+ pretty n))
  else page [] None.

(** A remote with no record at all. *)
Definition no_records (_ : list HttpRequest) (_ : HttpRequest) : @Response nat :=
  page [] None.

(** A remote that answers every request with a server error. *)
Definition server_error (_ : list HttpRequest) (_ : HttpRequest) : @Response nat :=
  {| status_code := 500;
     json := {| js_items := None; js_totalResults := None;
                js_nextCursor := None; js_facets := None |} |}.

(** A remote whose first page has one item and a cursor, and whose later
    pages have no item but still carry a cursor. *)
Definition stale_cursor (answered : list HttpRequest) (_ : HttpRequest)
  : @Response nat :=
  match answered with
  | [] => page [0%nat] (Some "next")
  | _ :: _ => page [] (Some "next")
  end.


End Fixture.

(** * Properties *)

(** ** Python string primitives *)

Section Strings.

Lemma append_nil_l (b : string) : EmptyString +:+ b = b.
Proof. reflexivity. Qed.

Lemma append_cons (c : ascii) (a b : string) :
  String c a +:+ b = String c (a +:+ b).
Proof. reflexivity. Qed.

Lemma append_assoc (a b c : string) : (a +:+ b) +:+ c = a +:+ b +:+ c.
Proof.
  induction a as [|x a IH]; [done |].
  by rewrite !append_cons, IH.
Qed.

(** [startswith] holds exactly when the string is the prefix followed
    by something. *)
Lemma startswith_iff (s p : string) :
  Py.startswith s p = true <-> exists b, s = p +:+ b.
Proof.
  unfold Py.startswith. revert s.
  induction p as [|c p IH]; intros s.
  - split; [intros _; exists s; reflexivity | by destruct s].
  - destruct s as [|d s]; simpl.
    + split; [done | intros [b Hb]; discriminate].
    + destruct (ascii_dec c d) as [->|Hne].
      * rewrite IH. split; intros [b Hb]; exists b.
        -- by rewrite append_cons, Hb.
        -- rewrite append_cons in Hb. by inversion Hb.
      * split; [done | intros [b Hb]].
        rewrite append_cons in Hb. inversion Hb; congruence.
Qed.

Lemma endswith_unfold (s p : string) :
  Py.endswith s p
  = String.eqb s p
    || match s with
       | EmptyString => false
       | String _ s' => Py.endswith s' p
       end.
Proof. by destruct s. Qed.

(** [endswith] holds exactly when the string is something followed by
    the suffix. *)
Lemma endswith_iff (s p : string) :
  Py.endswith s p = true <-> exists a, s = a +:+ p.
Proof.
  induction s as [|c s IH]; rewrite endswith_unfold.
  - rewrite orb_false_r, String.eqb_eq. split.
    + intros <-. by exists EmptyString.
    + intros [a Ha]. destruct a; [done | discriminate].
  - rewrite orb_true_iff, String.eqb_eq, IH. split.
    + intros [<- | [a ->]]; [by exists EmptyString | by exists (String c a)].
    + intros [a Ha]. destruct a as [|d a]; [by left |].
      right. exists a. rewrite append_cons in Ha. by inversion Ha.
Qed.

Lemma contains_unfold (s sub : string) :
  Py.contains s sub
  = Py.startswith s sub
    || match s with
       | EmptyString => false
       | String _ s' => Py.contains s' sub
       end.
Proof. by destruct s. Qed.

(** [contains] holds exactly when the substring occurs somewhere. *)
Lemma contains_iff (s sub : string) :
  Py.contains s sub = true <-> exists a b, s = a +:+ sub +:+ b.
Proof.
  induction s as [|c s IH]; rewrite contains_unfold.
  - rewrite orb_false_r, startswith_iff. split.
    + intros [b Hb]. by exists EmptyString, b.
    + intros (a & b & Hab). destruct a; [by exists b | discriminate].
  - rewrite orb_true_iff, startswith_iff, IH. split.
    + intros [[b Hb] | (a & b & ->)];
        [by exists EmptyString, b | by exists (String c a), b].
    + intros (a & b & Hab). destruct a as [|d a].
      * left. by exists b.
      * right. exists a, b. rewrite append_cons in Hab. by inversion Hab.
Qed.

Lemma str_truthy_iff (s : string) : Py.str_truthy s = true <-> s <> EmptyString.
Proof. destruct s; simpl; split; congruence. Qed.

Lemma str_in_iff (x : string) (l : list string) :
  Py.str_in x l = true <-> In x l.
Proof.
  unfold Py.str_in. rewrite existsb_exists. split.
  - intros (y & Hy & Heq). apply String.eqb_eq in Heq. by subst.
  - intros Hx. exists x. split; [done | apply String.eqb_refl].
Qed.

End Strings.

(** ** The query string compiler *)

Section Compiler.




Lemma single_filter (field : string) (value : Value) :
  build_query_string None (Some [(field, value)]) = filter_term field value.
Proof. reflexivity. Qed.

(** The quoting test in words: the value has a space somewhere and it is
    not the case that it both starts and ends with a double quote. *)
Lemma needs_quotes_iff (v : string) :
  needs_quotes v = true
  <-> (exists a b, v = a +:+ " " +:+ b)
      /\ ~ ((exists m, v = Py.dquote +:+ m) /\ (exists m, v = m +:+ Py.dquote)).
Proof.
  unfold needs_quotes.
  rewrite andb_true_iff, negb_true_iff, andb_false_iff, contains_iff.
  rewrite <- !not_true_iff_false, startswith_iff, endswith_iff.
  split; intros [Hs Hw]; (split; [done |]); [tauto |].
  destruct (Py.startswith v Py.dquote) eqn:Hst.
  - right. intros He. apply Hw. split; [by apply startswith_iff | done].
  - left. intros He. apply startswith_iff in He. congruence.
Qed.

(** A wrapped value is not wrapped again. *)
Lemma needs_quotes_wrapped (v : string) :
  needs_quotes (Py.dquote +:+ v +:+ Py.dquote) = false.
Proof.
  apply not_true_iff_false. rewrite needs_quotes_iff. intros [_ Hw].
  apply Hw. split; [by eexists |].
  exists (Py.dquote +:+ v). by rewrite append_assoc.
Qed.


(** C3. A filter value whose string form has a space and is not already
    wrapped in double quotes (it does not both start and end with one)
    is emitted wrapped in double quotes; a value that starts and ends
    with a double quote is emitted as it is; a value without a space is
    emitted as it is; and compiling the emitted value again changes
    nothing, so a value is never wrapped twice. *)
Theorem C3_quoting_rule (field : string) (value : Value) :
  let v := value_str value in
  let term := build_query_string None (Some [(field, value)]) in
  ((exists a b, v = a +:+ " " +:+ b) ->
   ~ ((exists m, v = Py.dquote +:+ m) /\ (exists m, v = m +:+ Py.dquote)) ->
   term = field +:+ ":" +:+ Py.dquote +:+ v +:+ Py.dquote)
  /\ ((exists m, v = Py.dquote +:+ m) -> (exists m, v = m +:+ Py.dquote) ->
      term = field +:+ ":" +:+ v)
  /\ ((forall a b, v <> a +:+ " " +:+ b) -> term = field +:+ ":" +:+ v)
  /\ (exists emitted,
        term = field +:+ ":" +:+ emitted
        /\ build_query_string None (Some [(field, VStr emitted)]) = term).
Proof.
  intros v term. subst term. rewrite single_filter.
  unfold filter_term. fold v.
  destruct (needs_quotes v) eqn:Hq.
  - apply needs_quotes_iff in Hq as [Hs Hw].
    split; [done |]. split; [tauto |]. split.
    + intros Hno. destruct Hs as (a & b & Hab). by destruct (Hno a b).
    + eexists. split; [done |].
      rewrite single_filter. unfold filter_term. cbn [value_str].
      by rewrite needs_quotes_wrapped.
  - assert (Hn := proj2 (not_true_iff_false _) Hq).
    rewrite needs_quotes_iff in Hn.
    split; [tauto |]. split; [done |]. split; [done |].
    exists v. split; [done |].
    rewrite single_filter. unfold filter_term. cbn [value_str].
    by rewrite Hq.
Qed.

Lemma C3_quoting_rule_witness :
  build_query_string None (Some [("f", VStr "a b")])
  = "f:" +:+ Py.dquote +:+ "a b" +:+ Py.dquote.
Proof.
  apply (proj1 (C3_quoting_rule "f" (VStr "a b"))).
  - by exists "a", "b".
  - intros [[m Hm] _]. discriminate Hm.
Defined.

End Compiler.

(** ** The request of one page *)

Section Requests.

Context {Float Item : Type}.
Variable float_str : Float -> string.
Variable http_get : list HttpRequest -> HttpRequest -> @Response Item.

Implicit Types (w : @World Float) (self : EuropeanaClient) (q : loc).

Lemma lookup_param_if_ne (key k : string) (value : option string)
    (params : gmap string string) :
  key <> k -> param_if key value params !! k = params !! k.
Proof. intros Hne. destruct value; [by apply lookup_insert_ne | done]. Qed.

Lemma lookup_param_if_eq (key : string) (value : option string)
    (params : gmap string string) :
  param_if key value params !! key
  = match value with
    | Some v => Some v
    | None => params !! key
    end.
Proof. destruct value; [by apply lookup_insert_eq | done]. Qed.

(** Lookup of a parameter that no keyword argument replaces and no
    conditional assignment touches. *)
Ltac params_lookup H :=
  unfold search_raw_params; cbv zeta;
  rewrite lookup_union, H;
  rewrite !lookup_param_if_ne by done;
  by rewrite ?lookup_insert_ne, lookup_insert_eq by done.

Lemma params_rows self q cursor kwargs w :
  kwargs !! "rows" = None ->
  search_raw_params float_str self q cursor kwargs w !! "rows"
  = Some (Py.str_int (Z.min (_rows (builder_at w q)) MAX_ROWS)).
Proof. intros H. params_lookup H. Qed.

Lemma params_cursor self q cursor kwargs w :
  kwargs !! "cursor" = None ->
  search_raw_params float_str self q cursor kwargs w !! "cursor" = Some cursor.
Proof. intros H. params_lookup H. Qed.

Lemma params_query self q cursor kwargs w :
  kwargs !! "query" = None ->
  search_raw_params float_str self q cursor kwargs w !! "query"
  = Some (if Py.str_truthy (get_query_string q w)
          then get_query_string q w else "*:*").
Proof. intros H. params_lookup H. Qed.

Lemma params_facet self q cursor kwargs w :
  kwargs !! "facet" = None ->
  search_raw_params float_str self q cursor kwargs w !! "facet"
  = Py.join "," <$> requested_facets q w.
Proof.
  intros H. unfold search_raw_params; cbv zeta.
  rewrite lookup_union, H.
  rewrite !lookup_param_if_ne, lookup_param_if_eq by done.
  destruct (requested_facets q w); [done |].
  by rewrite !lookup_insert_ne by done.
Qed.

Lemma params_kwargs self q cursor kwargs w k v :
  kwargs !! k = Some v ->
  search_raw_params float_str self q cursor kwargs w !! k = Some v.
Proof.
  intros H. unfold search_raw_params; cbv zeta.
  by rewrite lookup_union, H, union_Some_l.
Qed.

(** The request [search_raw] sends. *)
Definition page_request self q cursor kwargs w : HttpRequest :=
  {| req_url := base_url self;
     req_params := search_raw_params float_str self q cursor kwargs w |}.

Lemma search_raw_world self q cursor kwargs w :
  (search_raw float_str http_get self q cursor kwargs w).2
  = log_request (page_request self q cursor kwargs w) w.
Proof.
  unfold search_raw; cbv zeta.
  by destruct (raise_for_status _).
Qed.

Lemma search_raw_sent self q cursor kwargs w :
  sent (search_raw float_str http_get self q cursor kwargs w).2
  = sent w ++ [page_request self q cursor kwargs w].
Proof. by rewrite search_raw_world. Qed.

(** A failed status is raised. *)
Lemma search_raw_failure self q cursor kwargs w :
  let response := http_get (sent w) (page_request self q cursor kwargs w) in
  is_success response = false ->
  (search_raw float_str http_get self q cursor kwargs w).1
  = Raise (HTTPStatusError (status_code response)).
Proof.
  intros response Hfail. unfold search_raw; cbv zeta.
  fold (page_request self q cursor kwargs w). fold response.
  unfold raise_for_status. by rewrite Hfail.
Qed.

(** A successful status gives the results read from the body. *)
Lemma search_raw_success self q cursor kwargs w :
  let response := http_get (sent w) (page_request self q cursor kwargs w) in
  is_success response = true ->
  exists results,
    (search_raw float_str http_get self q cursor kwargs w).1 = Ret results
    /\ items results = default [] (js_items (json response))
    /\ next_cursor results = js_nextCursor (json response)
    /\ query results = Some (get_query_string q w).
Proof.
  intros response Hok. unfold search_raw; cbv zeta.
  fold (page_request self q cursor kwargs w). fold response.
  unfold raise_for_status. rewrite Hok. by eexists.
Qed.

End Requests.

(** ** The q builder *)

Section Builder.

Context {Float Item : Type}.
Variable float_str : Float -> string.
Variable http_get : list HttpRequest -> HttpRequest -> @Response Item.

Implicit Types (w : @World Float) (self : EuropeanaClient) (q : loc).

Lemma list_at_set_list (l : loc) (x : list string) w :
  list_at (set_list l x w) l = x.
Proof. apply lookup_total_insert_eq. Qed.

Lemma list_at_set_list_ne (l l' : loc) (x : list string) w :
  l <> l' -> list_at (set_list l x w) l' = list_at w l'.
Proof. intros Hne. by apply lookup_total_insert_ne. Qed.

(** What the loop of [facets] does when every field is accepted: the
    fields are appended, in order, to the builder's facet list, and
    nothing else changes. *)
Lemma facets_loop_accepts (field_names : list StrOrEnum) q w :
  Forall (fun f => is_facetable (str_or_value f) = true) field_names ->
  exists w',
    facets_loop field_names q w = (Ret tt, w')
    /\ builders w' = builders w /\ dicts w' = dicts w /\ sent w' = sent w
    /\ list_at w' (_facets (builder_at w q))
       = list_at w (_facets (builder_at w q)) ++ map str_or_value field_names.
Proof.
  intros Hall. revert w.
  induction Hall as [|f fs Hf _ IH]; intros w.
  - exists w. by rewrite app_nil_r.
  - cbn [facets_loop]. rewrite Hf. cbn [negb].
    set (l := _facets (builder_at w q)).
    destruct (IH (set_list l (list_at w l ++ [str_or_value f]) w))
      as (w' & Hrun & Hb & Hd & Hs & Hl).
    exists w'. split; [done |]. repeat split; [done..|].
    change (builder_at (set_list l (list_at w l ++ [str_or_value f]) w) q)
      with (builder_at w q) in Hl.
    fold l in Hl. rewrite Hl, list_at_set_list.
    by rewrite <- app_assoc.
Qed.

(** What it does at the first field that is not accepted: it raises,
    naming that field, with the accepted fields before it already
    appended. *)
Lemma facets_loop_rejects (ok rest : list StrOrEnum) (bad : StrOrEnum) q w :
  Forall (fun f => is_facetable (str_or_value f) = true) ok ->
  is_facetable (str_or_value bad) = false ->
  exists w',
    facets_loop (ok ++ bad :: rest) q w
    = (Raise (ValueError (not_facetable_msg (str_or_value bad))), w')
    /\ builders w' = builders w /\ dicts w' = dicts w /\ sent w' = sent w.
Proof.
  intros Hall Hbad. revert w.
  induction Hall as [|f fs Hf _ IH]; intros w.
  - exists w. cbn [app facets_loop]. by rewrite Hbad.
  - cbn [app facets_loop]. rewrite Hf. cbn [negb].
    destruct (IH (set_list (_facets (builder_at w q))
                           (list_at w (_facets (builder_at w q))
                            ++ [str_or_value f]) w))
      as (w' & Hrun & Hb & Hd & Hs).
    by exists w'.
Qed.

(** C5. A call of [facets] in which every field is in the allow-list
    succeeds, sends nothing, and appends the fields verbatim and in
    order to the builder's facet list, which is the list the compiled
    request carries in its [facet] parameter.  A call with a field
    outside the allow-list raises [ValueError] at the first such field,
    before anything is sent, with a message that names the rejected
    field and prints the allow-list, which has thirteen entries. *)
Theorem C5_facet_registration (field_names : list StrOrEnum) (q : loc) w :
  (Forall (fun f => In (str_or_value f) (map enum_value FACETABLE_FIELDS))
          field_names ->
   exists w',
     facets field_names q w = (Ret q, w')
     /\ sent w' = sent w
     /\ list_at w' (_facets (builder_at w' q))
        = list_at w (_facets (builder_at w q)) ++ map str_or_value field_names
     /\ (field_names <> [] ->
         forall self cursor,
           req_params (page_request float_str self q cursor ∅ w') !! "facet"
           = Some (Py.join "," (list_at w (_facets (builder_at w q))
                                ++ map str_or_value field_names))))
  /\ (forall ok bad rest,
        field_names = ok ++ bad :: rest ->
        Forall (fun f => In (str_or_value f) (map enum_value FACETABLE_FIELDS)) ok ->
        ~ In (str_or_value bad) (map enum_value FACETABLE_FIELDS) ->
        exists w',
          facets field_names q w
          = (Raise (ValueError
                      ("Field '" +:+ str_or_value bad
                       +:+ "' is not facetable. Valid facetable fields: ["
                       +:+ Py.join ", " (map enum_repr FACETABLE_FIELDS) +:+ "]")),
             w')
          /\ sent w' = sent w)
  /\ length FACETABLE_FIELDS = 13%nat.
Proof.
  split; [| split; [| reflexivity]].
  - intros Hall.
    assert (Hall' : Forall (fun f => is_facetable (str_or_value f) = true) field_names).
    { eapply Forall_impl; [exact Hall |]. intros f Hf. by apply str_in_iff. }
    destruct (facets_loop_accepts field_names q w Hall')
      as (w' & Hrun & Hb & Hd & Hs & Hl).
    exists w'. unfold facets. rewrite Hrun.
    assert (Hsame : builder_at w' q = builder_at w q)
      by (unfold builder_at; by rewrite Hb).
    split; [done |]. split; [done |]. rewrite Hsame. split; [done |].
    intros Hne self cursor. unfold page_request. cbn [req_params].
    rewrite params_facet by apply lookup_empty.
    unfold requested_facets. rewrite Hsame, Hl.
    destruct (list_at w (_facets (builder_at w q)) ++ map str_or_value field_names)
      as [|x xs] eqn:Hcat; [| done].
    apply app_eq_nil in Hcat as [_ Hmap].
    destruct field_names; [done | discriminate].
  - intros ok bad rest -> Hok Hbad.
    assert (Hok' : Forall (fun f => is_facetable (str_or_value f) = true) ok).
    { eapply Forall_impl; [exact Hok |]. intros f Hf. by apply str_in_iff. }
    assert (Hbad' : is_facetable (str_or_value bad) = false).
    { apply not_true_iff_false. intros Ht. by apply Hbad, str_in_iff. }
    destruct (facets_loop_rejects ok rest bad q w Hok' Hbad')
      as (w' & Hrun & _ & _ & Hs).
    exists w'. unfold facets. by rewrite Hrun.
Qed.

End Builder.

(** ** The pagination loop *)

Section Pagination.

Context {Float Item : Type}.
Variable float_str : Float -> string.
Variable http_get : list HttpRequest -> HttpRequest -> @Response Item.
Variable self : EuropeanaClient.
Variable q : loc.
Variable max_records : option Z.

Implicit Types (w : @World Float) (g : GenState (@SearchResults Item) Item).

(** The builder a page is fetched with: the deep copy of the caller's
    builder with [_rows] assigned, and the store that holds it. *)
Definition page_copy (rows : Z) w : loc * World :=
  let '(page_query, w1) := deepcopy q w in
  (page_query, set_builder page_query (with_rows rows (builder_at w1 page_query)) w1).

(** The request of a page fetched from the store [w]. *)
Definition page_fetch_request (rows : Z) (cursor : string) w : HttpRequest :=
  page_request float_str self (page_copy rows w).1 cursor ∅ (page_copy rows w).2.

Lemma page_copy_sent rows w : sent (page_copy rows w).2 = sent w.
Proof. reflexivity. Qed.

Lemma page_copy_builder rows w :
  builder_at (page_copy rows w).2 (page_copy rows w).1
  = with_rows rows
      {| _filters := fresh (dom (dicts w));
         _text_query := _text_query (builder_at w q);
         _geographic := _geographic (builder_at w q);
         _facets := fresh (dom (lists w));
         _profile := _profile (builder_at w q);
         _rows := _rows (builder_at w q);
         _reusability := _reusability (builder_at w q);
         _media_flag := _media_flag (builder_at w q);
         _thumbnail_flag := _thumbnail_flag (builder_at w q) |}.
Proof.
  unfold page_copy, deepcopy, builder_at; cbn.
  by rewrite !lookup_total_insert_eq.
Qed.

(** The copy compiles to the query string of the caller's builder as it
    is when the copy is taken. *)
Lemma page_copy_query_string rows w :
  get_query_string (page_copy rows w).1 (page_copy rows w).2
  = get_query_string q w.
Proof.
  unfold get_query_string. rewrite page_copy_builder. cbn.
  unfold dict_at; cbn. by rewrite lookup_total_insert_eq.
Qed.

Lemma page_copy_rows rows w :
  _rows (builder_at (page_copy rows w).2 (page_copy rows w).1) = rows.
Proof. by rewrite page_copy_builder. Qed.

(** The parameters of a page request: the rows computed for the page,
    clamped once more by [search_raw]; the cursor; the query string of
    the caller's builder at the time of the fetch. *)
Lemma page_fetch_request_rows rows cursor w :
  req_params (page_fetch_request rows cursor w) !! "rows"
  = Some (Py.str_int (Z.min rows MAX_ROWS)).
Proof.
  unfold page_fetch_request, page_request; cbn [req_params].
  rewrite params_rows by apply lookup_empty.
  by rewrite page_copy_rows.
Qed.

Lemma page_fetch_request_cursor rows cursor w :
  req_params (page_fetch_request rows cursor w) !! "cursor" = Some cursor.
Proof.
  unfold page_fetch_request, page_request; cbn [req_params].
  by rewrite params_cursor by apply lookup_empty.
Qed.

Lemma page_fetch_request_query rows cursor w :
  req_params (page_fetch_request rows cursor w) !! "query"
  = Some (if Py.str_truthy (get_query_string q w)
          then get_query_string q w else "*:*").
Proof.
  unfold page_fetch_request, page_request; cbn [req_params].
  rewrite params_query by apply lookup_empty.
  by rewrite page_copy_query_string.
Qed.

Abbreviation fetch := (fun page_query cursor =>
                         search_raw float_str http_get self page_query cursor ∅).
Abbreviation loop_top_raw := (loop_top fetch items q max_records).
Abbreviation resume_raw := (resume fetch items next_cursor q max_records).
Abbreviation next_raw := (search_all_raw float_str http_get self q max_records).

(** One pass through the top of the loop, case by case. *)
Lemma loop_top_break cursor rf w :
  page_rows max_records rf = None ->
  loop_top_raw cursor rf w = (StopIteration, GenClosed, w).
Proof. intros H. unfold loop_top. by rewrite H. Qed.

Lemma loop_top_sent cursor rf rows w :
  page_rows max_records rf = Some rows ->
  sent (loop_top_raw cursor rf w).2 = sent w ++ [page_fetch_request rows cursor w].
Proof.
  intros H. unfold loop_top. rewrite H.
  change (deepcopy q w) with ((deepcopy q w).1, (deepcopy q w).2). cbv beta iota.
  fold (page_copy rows w).
  pose proof (search_raw_sent float_str http_get self (page_copy rows w).1 cursor ∅
                (page_copy rows w).2) as Hs.
  destruct (search_raw _ _ _ _ _ _ _) as [[results|e] w3]; cbn [snd] in *.
  - by destruct (items results).
  - done.
Qed.

Lemma loop_top_unfold cursor rf rows w :
  page_rows max_records rf = Some rows ->
  loop_top_raw cursor rf w
  = match fetch (page_copy rows w).1 cursor (page_copy rows w).2 with
    | (Raise e, w') => (Raised e, GenClosed, w')
    | (Ret results, w') =>
        match items results with
        | item :: rest => (Yield item, GenSuspended cursor rf results rest, w')
        | [] => (StopIteration, GenClosed, w')
        end
    end.
Proof. intros H. unfold loop_top. by rewrite H. Qed.

(** The store a fetch leaves: the copy, and the request recorded. *)
Definition after_fetch (rows : Z) (cursor : string) w : World :=
  log_request (page_fetch_request rows cursor w) (page_copy rows w).2.

(** A page request answered with a failed status ends the call of
    [next()] with the exception. *)
Lemma loop_top_failure cursor rf rows w :
  page_rows max_records rf = Some rows ->
  let response := http_get (sent w) (page_fetch_request rows cursor w) in
  is_success response = false ->
  loop_top_raw cursor rf w
  = (Raised (HTTPStatusError (status_code response)), GenClosed,
     after_fetch rows cursor w).
Proof.
  intros H response Hfail. rewrite (loop_top_unfold _ _ _ _ H).
  pose proof (search_raw_failure float_str http_get self (page_copy rows w).1
                cursor ∅ (page_copy rows w).2 Hfail) as Hres.
  pose proof (search_raw_world float_str http_get self (page_copy rows w).1
                cursor ∅ (page_copy rows w).2) as Hw.
  destruct (search_raw _ _ _ _ _ _ _) as [res w3]; cbn [fst snd] in *.
  by subst.
Qed.

(** A page request answered with success yields the first item of the
    page, or stops when the page has none. *)
Lemma loop_top_success cursor rf rows w :
  page_rows max_records rf = Some rows ->
  let response := http_get (sent w) (page_fetch_request rows cursor w) in
  is_success response = true ->
  exists results,
    items results = default [] (js_items (json response))
    /\ next_cursor results = js_nextCursor (json response)
    /\ loop_top_raw cursor rf w
       = (match items results with
          | item :: rest => (Yield item, GenSuspended cursor rf results rest)
          | [] => (StopIteration, GenClosed)
          end, after_fetch rows cursor w).
Proof.
  intros H response Hok. rewrite (loop_top_unfold _ _ _ _ H).
  destruct (search_raw_success float_str http_get self (page_copy rows w).1
              cursor ∅ (page_copy rows w).2 Hok) as (results & Hres & Hi & Hc & _).
  pose proof (search_raw_world float_str http_get self (page_copy rows w).1
                cursor ∅ (page_copy rows w).2) as Hw.
  destruct (search_raw _ _ _ _ _ _ _) as [res w3]; cbn [fst snd] in *.
  subst. exists results. split; [done |]. split; [done |].
  by destruct (items results).
Qed.

(** Where a call of [next()] can fetch: on the first call, with the start
    cursor and nothing counted; or on resuming after the last item of a
    page that is not the last page, with the cursor of that page and the
    item counted. *)
Definition fetch_point g (cursor : string) (rf : Z) : Prop :=
  (g = GenCreated /\ cursor = "*" /\ rf = 0)
  \/ (exists c0 rf0 results,
         g = GenSuspended c0 rf0 results []
         /\ rf = rf0 + 1
         /\ cursor = default EmptyString (next_cursor results)
         /\ last_page items next_cursor results = false).

(** One call of [next()] does one of three things: it stops without
    touching the store; it yields the next buffered item without
    touching the store; or it goes once through the top of the loop. *)
Lemma next_raw_cases g w :
  next_raw g w = (StopIteration, GenClosed, w)
  \/ (exists c rf results x rest,
         g = GenSuspended c rf results (x :: rest)
         /\ next_raw g w = (Yield x, GenSuspended c (rf + 1) results rest, w))
  \/ (exists cursor rf rows,
         fetch_point g cursor rf
         /\ page_rows max_records rf = Some rows
         /\ next_raw g w = loop_top_raw cursor rf w).
Proof.
  destruct g as [|c rf results rest|]; unfold search_all_raw, next.
  - destruct (page_rows max_records 0) as [rows|] eqn:Hrows.
    + right; right. exists "*", 0, rows. split; [by left | done].
    + left. by apply loop_top_break.
  - unfold resume.
    destruct (budget_reached max_records (rf + 1)); [by left |].
    destruct rest as [|x rest].
    + destruct (last_page items next_cursor results) eqn:Hlast; [by left |].
      destruct (page_rows max_records (rf + 1)) as [rows|] eqn:Hrows.
      * right; right. eexists _, (rf + 1), rows.
        split; [| done]. right. by exists c, rf, results.
      * left. by apply loop_top_break.
    + right; left. by exists c, rf, results, x, rest.
  - by left.
Qed.

(** A call of [next()] sends at most one request, and sends it only
    through the top of the loop. *)
Lemma next_raw_sent g w r :
  sent (next_raw g w).2 = sent w ++ [r] ->
  exists cursor rf rows,
    fetch_point g cursor rf
    /\ page_rows max_records rf = Some rows
    /\ next_raw g w = loop_top_raw cursor rf w
    /\ r = page_fetch_request rows cursor w.
Proof.
  intros Hsent.
  destruct (next_raw_cases g w)
    as [Hstop | [(c & rf & results & x & rest & _ & Hyield)
                | (cursor & rf & rows & Hpoint & Hrows & Htop)]].
  - rewrite Hstop in Hsent. cbn in Hsent.
    rewrite <- (app_nil_r (sent w)) in Hsent at 1.
    by apply app_inv_head in Hsent.
  - rewrite Hyield in Hsent. cbn in Hsent.
    rewrite <- (app_nil_r (sent w)) in Hsent at 1.
    by apply app_inv_head in Hsent.
  - exists cursor, rf, rows. repeat split; [done..|].
    rewrite Htop, (loop_top_sent _ _ _ _ Hrows) in Hsent.
    apply app_inv_head in Hsent. by inversion Hsent.
Qed.

(** C9. When the request a call of [next()] sends is answered with a
    status that is not a success, that call raises [HTTPStatusError]
    carrying the status: it neither stops as if the results were
    exhausted nor yields an item, and the generator is finished. *)
Theorem C9_transport_error_propagates g w r :
  sent (next_raw g w).2 = sent w ++ [r] ->
  is_success (http_get (sent w) r) = false ->
  (next_raw g w).1
  = (Raised (HTTPStatusError (status_code (http_get (sent w) r))), GenClosed)
  /\ (next_raw g w).1.1 <> StopIteration
  /\ (forall x, (next_raw g w).1.1 <> Yield x).
Proof.
  intros Hsent Hfail.
  destruct (next_raw_sent g w r Hsent) as (cursor & rf & rows & _ & Hrows & Htop & ->).
  rewrite Htop, (loop_top_failure _ _ _ _ Hrows Hfail). by cbn.
Qed.

Abbreviation drain_raw :=
  (drain fetch items next_cursor q max_records).

(** The rows the loop computes, in closed form: the default page size
    when [max_records] is falsy ([None] or [0]), else the smaller of the
    default page size and what remains of the budget; the loop breaks
    when nothing remains. *)
Lemma page_rows_closed_form (rf : Z) :
  page_rows max_records rf
  = match max_records with
    | None => Some DEFAULT_ROWS
    | Some m =>
        if m =? 0 then Some DEFAULT_ROWS
        else if m - rf <=? 0 then None
             else Some (Z.min DEFAULT_ROWS (m - rf))
    end.
Proof.
  unfold page_rows, budget_truthy.
  destruct max_records as [m|]; [| done].
  by destruct (m =? 0).
Qed.

(** The rows a request of the loop carries. *)
Lemma next_raw_request_rows g w r :
  sent (next_raw g w).2 = sent w ++ [r] ->
  exists cursor rf rows,
    fetch_point g cursor rf
    /\ page_rows max_records rf = Some rows
    /\ rows <= DEFAULT_ROWS
    /\ req_params r !! "rows" = Some (Py.str_int rows)
    /\ req_params r !! "cursor" = Some cursor.
Proof.
  intros Hsent.
  destruct (next_raw_sent g w r Hsent) as (cursor & rf & rows & Hp & Hrows & _ & ->).
  exists cursor, rf, rows.
  assert (Hle : rows <= DEFAULT_ROWS).
  { rewrite page_rows_closed_form in Hrows.
    destruct max_records as [m|]; [| by inversion Hrows].
    destruct (m =? 0); [by inversion Hrows |].
    destruct (m - rf <=? 0); [done |].
    inversion Hrows. apply Z.le_min_l. }
  repeat split; [done.. | | apply page_fetch_request_cursor].
  rewrite page_fetch_request_rows. unfold MAX_ROWS, DEFAULT_ROWS in *.
  by rewrite Z.min_l.
Qed.

(** With a budget that is not negative the loop reaches its first
    fetch. *)
Lemma page_rows_start :
  (forall m, max_records = Some m -> 0 <= m) ->
  exists rows, page_rows max_records 0 = Some rows.
Proof.
  intros Hnn. rewrite page_rows_closed_form.
  destruct max_records as [m|]; [| by eexists].
  specialize (Hnn m eq_refl).
  destruct (m =? 0) eqn:Hz; [by eexists |].
  apply Z.eqb_neq in Hz.
  destruct (m - 0 <=? 0) eqn:Hr; [apply Z.leb_le in Hr; lia | by eexists].
Qed.

(** C8. A page without items ends the iteration, whichever page it is:
    at any state of the generator, the first or a later page, with any
    number of records already yielded and whatever cursor the page
    carries, when the request a call of [next()] sends is answered with
    success and no items, that call stops, yields nothing and leaves the
    generator finished, having sent that one request.  In particular,
    when the first page comes back without items the first call of
    [next()] stops after exactly one request and the consumer receives
    nothing.  After the last item of a page that carried no cursor, or an
    empty one, the call of [next()] stops and sends nothing.  A finished
    generator stays finished and sends nothing. *)
Theorem C8_empty_page_and_missing_cursor_stop :
  (forall g w r,
      sent (next_raw g w).2 = sent w ++ [r] ->
      is_success (http_get (sent w) r) = true ->
      default [] (js_items (json (http_get (sent w) r))) = [] ->
      (next_raw g w).1 = (StopIteration, GenClosed)
      /\ next_raw (next_raw g w).1.2 (next_raw g w).2
         = (StopIteration, GenClosed, (next_raw g w).2))
  /\ (forall w,
      (forall m, max_records = Some m -> 0 <= m) ->
      (forall r, is_success (http_get (sent w) r) = true
                 /\ default [] (js_items (json (http_get (sent w) r))) = []) ->
      (next_raw GenCreated w).1 = (StopIteration, GenClosed)
      /\ (exists r, sent (next_raw GenCreated w).2 = sent w ++ [r])
      /\ (forall fuel, (drain_raw (S fuel) GenCreated w).1 = ([], Exhausted)))
  /\ (forall cursor rf results w,
        next_cursor results = None
        \/ next_cursor results = Some EmptyString ->
        next_raw (GenSuspended cursor rf results []) w
        = (StopIteration, GenClosed, w))
  /\ (forall w, next_raw GenClosed w = (StopIteration, GenClosed, w)).
Proof.
  split; [| split; [| split]].
  - intros g w r Hsent Hok Hitems.
    destruct (next_raw_sent g w r Hsent)
      as (cursor & rf & rows & _ & Hrows & Htop & ->).
    destruct (loop_top_success cursor rf rows w Hrows Hok)
      as (results & Hi & _ & Hloop).
    rewrite Hitems in Hi. rewrite Hi in Hloop.
    rewrite Htop, Hloop. by cbn.
  - intros w Hnn Hempty.
    destruct (page_rows_start Hnn) as [rows Hrows].
    destruct (Hempty (page_fetch_request rows "*" w)) as [Hok Hitems].
    destruct (loop_top_success "*" 0 rows w Hrows Hok)
      as (results & Hi & _ & Htop).
    rewrite Hitems in Hi. rewrite Hi in Htop.
    assert (Hnext : next_raw GenCreated w
                    = (StopIteration, GenClosed, after_fetch rows "*" w))
      by exact Htop.
    split; [by rewrite Hnext |]. split.
    + exists (page_fetch_request rows "*" w). by rewrite Hnext.
    + intros fuel. cbn [drain].
      change (next fetch items next_cursor q max_records GenCreated w)
        with (next_raw GenCreated w).
      by rewrite Hnext.
  - intros cursor rf results w Hlast.
    unfold search_all_raw, next, resume.
    destruct (budget_reached max_records (rf + 1)); [done |].
    assert (Hl : last_page items next_cursor results = true).
    { unfold last_page. by destruct Hlast as [-> | ->]. }
    by rewrite Hl.
  - done.
Qed.

End Pagination.

(** ** A remote that repeats a page *)

Section RepeatedPage.

Context {Float Item : Type}.
Variable float_str : Float -> string.
Variable http_get : list HttpRequest -> HttpRequest -> @Response Item.
Variable self : EuropeanaClient.
Variable q : loc.
Variable max_records : option Z.

Implicit Types (w : @World Float) (g : GenState (@SearchResults Item) Item).

(** The remote answers every request with success, the same items, of
    which there is at least one, and the same non-empty cursor. *)
Variable first_item : Item.
Variable other_items : list Item.
Variable again : string.
Hypothesis again_truthy : Py.str_truthy again = true.
Hypothesis same_answer :
  forall answered r,
    is_success (http_get answered r) = true
    /\ default [] (js_items (json (http_get answered r))) = first_item :: other_items
    /\ js_nextCursor (json (http_get answered r)) = Some again.

Abbreviation next_rep := (search_all_raw float_str http_get self q max_records).
Abbreviation drain_rep :=
  (drain (fun page_query cursor =>
            search_raw float_str http_get self page_query cursor ∅)
         items next_cursor q max_records).


(** The number of items the generator has yielded, as its frame counts
    them: the item it is suspended on is counted on resuming. *)
Definition yielded g : Z :=
  match g with
  | GenCreated => 0
  | GenSuspended _ records_fetched _ _ => records_fetched + 1
  | GenClosed => 0
  end.






End RepeatedPage.

(** ** The builder and its per-page copies *)

(** What the caller of a generator can do between two steps: call
    [next()], or mutate the builder it passed, here by setting a filter
    or the free text. *)
Inductive Action :=
| CallNext
| SetFilter (field : string) (value : Value)
| SetTextQuery (t : string).

Section Snapshot.

Context {Float Item : Type}.
Variable float_str : Float -> string.
Variable http_get : list HttpRequest -> HttpRequest -> @Response Item.
Variable self : EuropeanaClient.
Variable q : loc.
Variable max_records : option Z.

Implicit Types (w : @World Float) (g : GenState (@SearchResults Item) Item).

Abbreviation next_gen := (search_all_raw float_str http_get self q max_records).

(** The caller's builder, its filter dict and its facet list are objects
    of the store. *)
Definition allocated w : Prop :=
  q ∈ dom (builders w)
  /\ _filters (builder_at w q) ∈ dom (dicts w)
  /\ _facets (builder_at w q) ∈ dom (lists w).

(** One action on the generator and the store. *)
Definition act (a : Action) (st : GenState (@SearchResults Item) Item * World)
  : GenState (@SearchResults Item) Item * World :=
  match a with
  | CallNext => ((next_gen st.1 st.2).1.2, (next_gen st.1 st.2).2)
  | SetFilter field value => (st.1, (set_filter field value q st.2).2)
  | SetTextQuery t => (st.1, (text_query t q st.2).2)
  end.

(** A sequence of actions, first to last. *)
Definition run (acts : list Action) (st : GenState (@SearchResults Item) Item * World)
  : GenState (@SearchResults Item) Item * World :=
  fold_left (fun st a => act a st) acts st.

(** The copy is a new object: taking it leaves the caller's builder, its
    filter dict and its facet list as they were. *)
Lemma page_copy_frame rows w :
  allocated w ->
  builder_at (page_copy q rows w).2 q = builder_at w q
  /\ dict_at (page_copy q rows w).2 (_filters (builder_at w q))
     = dict_at w (_filters (builder_at w q))
  /\ list_at (page_copy q rows w).2 (_facets (builder_at w q))
     = list_at w (_facets (builder_at w q)).
Proof.
  intros (Hb & Hd & Hl).
  unfold page_copy, deepcopy, builder_at, dict_at, list_at in *;
    cbn [builders dicts lists set_builder set_dict set_list fst snd].
  assert (Hfb := is_fresh (dom (builders w))).
  assert (Hfd := is_fresh (dom (dicts w))).
  assert (Hfl := is_fresh (dom (lists w))).
  by rewrite !lookup_total_insert_ne by congruence.
Qed.

Lemma page_copy_allocated rows w :
  allocated w -> allocated (page_copy q rows w).2.
Proof.
  intros Ha. destruct (page_copy_frame rows w Ha) as (Hb & _ & _).
  destruct Ha as (Hq & Hd & Hl). unfold allocated. rewrite Hb.
  unfold page_copy, deepcopy; cbn.
  rewrite !dom_insert_L. set_solver.
Qed.

(** The store after a pass through the top of the loop that fetches. *)
Lemma loop_top_world cursor rf rows w :
  page_rows max_records rf = Some rows ->
  (loop_top (fun page_query cursor =>
               search_raw float_str http_get self page_query cursor ∅)
            items q max_records cursor rf w).2
  = after_fetch float_str self q rows cursor w.
Proof.
  intros Hrows.
  rewrite (loop_top_unfold float_str http_get self q max_records _ _ _ _ Hrows).
  pose proof (search_raw_world float_str http_get self (page_copy q rows w).1
                cursor ∅ (page_copy q rows w).2) as Hw.
  destruct (search_raw _ _ _ _ _ _ _) as [[results|e] w3]; cbn [snd] in *.
  - by destruct (items results).
  - done.
Qed.

(** The store after a call of [next()]: unchanged, or the store after a
    fetch. *)
Lemma next_world g w :
  (next_gen g w).2 = w
  \/ exists rows cursor,
       (next_gen g w).2 = after_fetch float_str self q rows cursor w.
Proof.
  destruct (next_raw_cases float_str http_get self q max_records g w)
    as [Hstop | [(c & rf & results & x & rest & _ & Hyield)
                | (cursor & rf & rows & _ & Hrows & Htop)]].
  - left. by rewrite Hstop.
  - left. by rewrite Hyield.
  - right. exists rows, cursor. by rewrite Htop, (loop_top_world _ _ _ _ Hrows).
Qed.

(** Iterating leaves the caller's builder as it was: the assignment of
    [_rows] goes to the copy. *)
Lemma next_frame g w :
  allocated w ->
  builder_at (next_gen g w).2 q = builder_at w q
  /\ dict_at (next_gen g w).2 (_filters (builder_at w q))
     = dict_at w (_filters (builder_at w q))
  /\ list_at (next_gen g w).2 (_facets (builder_at w q))
     = list_at w (_facets (builder_at w q))
  /\ allocated (next_gen g w).2.
Proof.
  intros Ha.
  destruct (next_world g w) as [-> | (rows & cursor & ->)]; [done |].
  destruct (page_copy_frame rows w Ha) as (Hb & Hd & Hl).
  split; [exact Hb |]. split; [exact Hd |]. split; [exact Hl |].
  apply (page_copy_allocated rows w Ha).
Qed.

(** A request once sent stays in the record as it was sent, whatever the
    caller does next. *)
Lemma act_sent_prefix a st : sent st.2 `prefix_of` sent (act a st).2.
Proof.
  destruct a as [|field value|t]; cbn [act snd]; [| reflexivity..].
  destruct (next_world st.1 st.2) as [-> | (rows & cursor & ->)];
    [reflexivity |].
  by apply prefix_app_r.
Qed.

Lemma run_sent_prefix acts st : sent st.2 `prefix_of` sent (run acts st).2.
Proof.
  revert st. induction acts as [|a acts IH]; intros st; [reflexivity |].
  cbn [run fold_left]. etrans; [apply (act_sent_prefix a) | apply IH].
Qed.

(** C4. Each fetch works on a deep copy of the builder taken when that
    fetch begins.  The requests already sent are never altered by what
    the caller does afterwards, mutations of the builder included.  The
    query string of a page request is compiled from the builder as it is
    when the call of [next()] that sends it starts, so it reflects
    exactly the mutations made before.  The copy shares nothing with the
    builder: setting a filter on the builder after the copy is taken
    leaves the copy's query string as it was, and iterating leaves the
    builder as it was. *)
Theorem C4_per_page_snapshot :
  (forall acts later st,
      sent (run acts st).2 `prefix_of` sent (run (acts ++ later) st).2)
  /\ (forall g w r,
        sent (next_gen g w).2 = sent w ++ [r] ->
        req_params r !! "query"
        = Some (if Py.str_truthy (get_query_string q w)
                then get_query_string q w else "*:*"))
  /\ (forall rows w field value,
        allocated w ->
        get_query_string (page_copy q rows w).1
                         (set_filter field value q (page_copy q rows w).2).2
        = get_query_string q w)
  /\ (forall g w,
        allocated w ->
        get_query_string q (next_gen g w).2 = get_query_string q w
        /\ builder_at (next_gen g w).2 q = builder_at w q).
Proof.
  split; [| split; [| split]].
  - intros acts later st. unfold run. rewrite fold_left_app.
    apply run_sent_prefix.
  - intros g w r Hsent.
    destruct (next_raw_sent float_str http_get self q max_records g w r Hsent)
      as (cursor & rf & rows & _ & _ & _ & ->).
    apply page_fetch_request_query.
  - intros rows w field value Ha.
    destruct (page_copy_frame rows w Ha) as (Hb & _ & _).
    destruct Ha as (_ & Hd & _).
    rewrite <- (page_copy_query_string q rows w).
    unfold get_query_string, set_filter; cbn [snd].
    change (builder_at (set_dict ?d ?x ?w0) ?l) with (builder_at w0 l).
    rewrite Hb, page_copy_builder. cbn [_filters _text_query with_rows].
    f_equal. unfold dict_at at 1 3; cbn [dicts set_dict].
    rewrite lookup_total_insert_ne; [done |].
    intros Heq. rewrite Heq in Hd. by apply is_fresh in Hd.
  - intros g w Ha.
    destruct (next_frame g w Ha) as (Hb & Hd & _ & _).
    split; [| done]. unfold get_query_string. by rewrite Hb, Hd.
Qed.

End Snapshot.

(** ** The row count *)

Section Rows.

Context {Float Item : Type}.
Variable float_str : Float -> string.
Variable http_get : list HttpRequest -> HttpRequest -> @Response Item.

Implicit Types (w : @World Float) (self : EuropeanaClient) (q : loc).

Lemma rows_stored count q w :
  _rows (builder_at (rows count q w).2 q) = Z.min count MAX_ROWS.
Proof.
  unfold rows, update_builder, builder_at; cbn [snd builders set_builder].
  by rewrite lookup_total_insert_eq.
Qed.

(** C6, as the code has it.  [rows(count)] returns the builder, with
    [min(count, 100)] stored as its row count, for every integer
    [count]: 100 for 150 and 10 for 10.  A request sent by [search_raw]
    carries a row count of at most 100 unless the caller passes [rows]
    among the keyword arguments, which replace the computed parameters;
    the pagination generators pass none, so their requests always carry
    at most 100. *)
Theorem C6_rows_clamped_unless_overridden :
  (forall count q w,
      (rows count q w).1 = q
      /\ _rows (builder_at (rows count q w).2 q) = Z.min count MAX_ROWS
      /\ _rows (builder_at (rows count q w).2 q) <= MAX_ROWS)
  /\ (forall q w,
        _rows (builder_at (rows 150 q w).2 q) = 100
        /\ _rows (builder_at (rows 10 q w).2 q) = 10)
  /\ (forall self q cursor kwargs w,
        kwargs !! "rows" = None ->
        exists r n,
          sent (search_raw float_str http_get self q cursor kwargs w).2
          = sent w ++ [r]
          /\ req_params r !! "rows" = Some (Py.str_int n)
          /\ n <= MAX_ROWS)
  /\ (forall self q max_records g w r,
        sent (search_all_raw float_str http_get self q max_records g w).2
        = sent w ++ [r] ->
        exists n, req_params r !! "rows" = Some (Py.str_int n) /\ n <= MAX_ROWS).
Proof.
  split; [| split; [| split]].
  - intros count q w. rewrite rows_stored.
    split; [done |]. split; [done | apply Z.le_min_r].
  - intros q w. by rewrite !rows_stored.
  - intros self q cursor kwargs w Hkw.
    exists (page_request float_str self q cursor kwargs w),
           (Z.min (_rows (builder_at w q)) MAX_ROWS).
    split; [apply search_raw_sent |]. split; [| apply Z.le_min_r].
    by apply params_rows.
  - intros self q max_records g w r Hsent.
    destruct (next_raw_request_rows float_str http_get self q max_records g w r Hsent)
      as (cursor & rf & n & _ & _ & Hle & Hrows & _).
    by exists n.
Qed.

(** C7 at a budget of zero.  [max_records = 0] is falsy, so the loop
    takes the branch without budget: whatever has been counted, the rows
    of the next page are the default page size, where the smaller of the
    default page size and the remaining budget is zero; the first call of
    [next()] sends a request for 100 rows. *)
Theorem C7_zero_budget_requests_full_pages :
  (forall rf, page_rows (Some 0) rf = Some DEFAULT_ROWS)
  /\ Z.min DEFAULT_ROWS (0 - 0) = 0
  /\ (forall self q w,
        exists r,
          sent (search_all_raw float_str http_get self q (Some 0) GenCreated w).2
          = sent w ++ [r]
          /\ req_params r !! "rows" = Some "100").
Proof.
  split; [done |]. split; [done |].
  intros self q w.
  exists (page_fetch_request float_str self q DEFAULT_ROWS "*" w).
  split.
  - unfold search_all_raw, next. by apply loop_top_sent.
  - by rewrite page_fetch_request_rows.
Qed.

End Rows.

(** ** Consumers *)

Section Drain.

Context {Float R X : Type}.
Variable fetch_page : loc -> string -> @World Float -> Res R * @World Float.
Variable results_items : R -> list X.
Variable results_next_cursor : R -> option string.
Variable q : loc.
Variable max_records : option Z.

Abbreviation drain_gen :=
  (drain fetch_page results_items results_next_cursor q max_records).

(** A consumer that saw the generator stop sees the same with more
    patience. *)
Lemma drain_more_fuel (fuel extra : nat) g w :
  (drain_gen fuel g w).1.2 = Exhausted ->
  drain_gen (fuel + extra) g w = drain_gen fuel g w.
Proof.
  revert g w. induction fuel as [|fuel IH]; intros g w Hend; [done |].
  cbn [Nat.add drain] in *.
  destruct (next _ _ _ _ _ g w) as [[[x| |e] g'] w']; [| done..].
  specialize (IH g' w').
  destruct (drain_gen fuel g' w') as [[xs e] w''] eqn:Hd.
  cbn in Hend. by rewrite IH.
Qed.

End Drain.

(** ** The three-page remote *)

Module ThreePages.

(** [list(client.search_all_raw(query, max_records))], the consumer
    calling [next()] at most [fuel] times, against the three-page
    remote. *)
Definition raw (max_records : option Z) (fuel : nat) :=
  drain (fun page_query cursor =>
           search_raw Fixture.float_str Fixture.three_pages Fixture.client
                      page_query cursor ∅)
        items next_cursor Fixture.builder max_records
        fuel GenCreated Fixture.store.

(** The same for [search_all], with a stand-in for
    [EuropeanaItem.from_dict] that never raises and leaves a visible mark
    on each item. *)
Definition structured (max_records : option Z) (fuel : nat) :=
  drain (fun page_query cursor =>
           search (Item := nat) (EItem := nat) (EFacet := nat)
                  Fixture.float_str Fixture.three_pages
                  (fun n => Ret (S n)) (fun n => Ret n) Fixture.client
                  page_query cursor ∅)
        s_items s_next_cursor Fixture.builder max_records
        fuel GenCreated Fixture.store.

End ThreePages.

(** C1. Against a remote that serves three pages of 100 items, each with
    a cursor, and then a page with no cursor, iterating without a budget
    yields the 300 items in order and stops, after four requests.  With
    [max_records = 250] it yields the first 250 items and stops after
    three requests: when the 250th item has been handed over the
    generator is suspended inside the third page, 50 items of it still
    unvisited, and the next call of [next()] stops without sending
    anything.  [search_all] behaves the same on the parsed items. *)
Theorem C1_three_pages_and_budget :
  (forall extra,
      (ThreePages.raw None (301 + extra)).1 = (seq 0 300, Exhausted)
      /\ length (sent (ThreePages.raw None (301 + extra)).2) = 4%nat)
  /\ (forall extra,
        (ThreePages.raw (Some 250) (251 + extra)).1 = (seq 0 250, Exhausted)
        /\ length (sent (ThreePages.raw (Some 250) (251 + extra)).2) = 3%nat)
  /\ (exists cursor results,
        (ThreePages.raw (Some 250) 250).1
        = (seq 0 250, StillRunning (GenSuspended cursor 249 results (seq 250 50)))
        /\ length (items results) = 100%nat
        /\ length (sent (ThreePages.raw (Some 250) 250).2) = 3%nat
        /\ search_all_raw Fixture.float_str Fixture.three_pages Fixture.client
             Fixture.builder (Some 250)
             (GenSuspended cursor 249 results (seq 250 50))
             (ThreePages.raw (Some 250) 250).2
           = (StopIteration, GenClosed, (ThreePages.raw (Some 250) 250).2))
  /\ (forall extra,
        (ThreePages.structured None (301 + extra)).1 = (seq 1 300, Exhausted)
        /\ length (sent (ThreePages.structured None (301 + extra)).2) = 4%nat)
  /\ (forall extra,
        (ThreePages.structured (Some 250) (251 + extra)).1
        = (seq 1 250, Exhausted)
        /\ length (sent (ThreePages.structured (Some 250) (251 + extra)).2)
           = 3%nat).
Proof.
  repeat split;
    try (unfold ThreePages.raw, ThreePages.structured;
         rewrite drain_more_fuel by (vm_compute; reflexivity);
         vm_compute; reflexivity).
  eexists _, _. split; [vm_compute; reflexivity |].
  split; [vm_compute; reflexivity |].
  split; vm_compute; reflexivity.
Qed.

(** ** Worked instances *)

(** The builder of the fixture is an object of its store. *)
Lemma fixture_allocated : allocated Fixture.builder Fixture.store.
Proof. repeat split; apply elem_of_dom; vm_compute; eauto. Qed.

(** The request of the first page, for the fixture's fresh builder. *)
Definition first_request : HttpRequest :=
  page_fetch_request Fixture.float_str Fixture.client Fixture.builder
                     DEFAULT_ROWS "*" Fixture.store.

(** A filter set between two pages shows in the second request and not
    in the first. *)
Example mutation_between_pages :
  map (fun r => req_params r !! "query")
      (sent (run Fixture.float_str Fixture.three_pages Fixture.client
                 Fixture.builder None
                 ([CallNext; SetFilter "who" (VStr "Vermeer")]
                  ++ repeat CallNext 100)
                 (GenCreated, Fixture.store)).2)
  = [Some "*:*"; Some "who:Vermeer"].
Proof. vm_compute. reflexivity. Qed.

(** With [max_records = 0] the whole result set is yielded. *)
Example zero_budget_yields_everything :
  (ThreePages.raw (Some 0) 400).1 = (seq 0 300, Exhausted)
  /\ map (fun r => req_params r !! "rows") (sent (ThreePages.raw (Some 0) 400).2)
     = [Some "100"; Some "100"; Some "100"; Some "100"].
Proof. split; vm_compute; reflexivity. Qed.

(** With a negative budget nothing is fetched. *)
Example negative_budget_fetches_nothing :
  ThreePages.raw (Some (-1)) 400 = ([], Exhausted, Fixture.store).
Proof. vm_compute. reflexivity. Qed.

Lemma C4_per_page_snapshot_witness :
  req_params first_request !! "query" = Some "*:*"
  /\ get_query_string
       (page_copy Fixture.builder 100 Fixture.store).1
       (set_filter "who" (VStr "Vermeer") Fixture.builder
                   (page_copy Fixture.builder 100 Fixture.store).2).2
     = get_query_string Fixture.builder Fixture.store
  /\ builder_at
       (search_all_raw Fixture.float_str Fixture.three_pages Fixture.client
                       Fixture.builder None GenCreated Fixture.store).2
       Fixture.builder
     = builder_at Fixture.store Fixture.builder.
Proof.
  destruct (C4_per_page_snapshot Fixture.float_str Fixture.three_pages
              Fixture.client Fixture.builder None) as (_ & Hq & Hs & Hf).
  split; [| split].
  - apply (Hq GenCreated Fixture.store first_request).
    vm_compute. reflexivity.
  - apply Hs. exact fixture_allocated.
  - apply Hf. exact fixture_allocated.
Defined.

Lemma C5_facet_registration_witness :
  (exists w',
      facets [AsEnum SearchField.TYPE; AsStr "COUNTRY"] Fixture.builder Fixture.store
      = (Ret Fixture.builder, w')
      /\ sent w' = sent Fixture.store
      /\ list_at w' (_facets (builder_at w' Fixture.builder)) = ["TYPE"; "COUNTRY"])
  /\ (exists w',
        facets [AsStr "TYPE"; AsStr "title"] Fixture.builder Fixture.store
        = (Raise (ValueError
                    ("Field 'title' is not facetable. Valid facetable fields: ["
                     +:+ Py.join ", " (map enum_repr FACETABLE_FIELDS) +:+ "]")),
           w')
        /\ sent w' = sent Fixture.store).
Proof.
  split.
  - destruct (proj1 (C5_facet_registration Fixture.float_str
                       [AsEnum SearchField.TYPE; AsStr "COUNTRY"]
                       Fixture.builder Fixture.store))
      as (w' & Hcall & Hsent & Hlist & _).
    { repeat constructor; cbn; tauto. }
    exists w'. split; [exact Hcall |]. split; [exact Hsent |].
    rewrite Hlist. vm_compute. reflexivity.
  - apply (proj1 (proj2 (C5_facet_registration Fixture.float_str
                           [AsStr "TYPE"; AsStr "title"]
                           Fixture.builder Fixture.store))
             [AsStr "TYPE"] (AsStr "title") []).
    + reflexivity.
    + repeat constructor; cbn; tauto.
    + cbn. intros H. repeat (destruct H as [H | H]; [discriminate H |]). exact H.
Defined.

Lemma C6_counterexample :
  exists r,
    sent (search_raw Fixture.float_str Fixture.no_records Fixture.client
                     Fixture.builder "*" {["rows" := "500"]} Fixture.store).2
    = sent Fixture.store ++ [r]
    /\ req_params r !! "rows" = Some (Py.str_int 500)
    /\ ~ (500 <= MAX_ROWS).
Proof.
  eexists. split; [apply search_raw_sent |]. split.
  - apply params_kwargs. vm_compute. reflexivity.
  - unfold MAX_ROWS. lia.
Qed.

Lemma C6_rows_clamped_unless_overridden_witness :
  exists r n,
    sent (search_raw Fixture.float_str Fixture.no_records Fixture.client
                     Fixture.builder "*" {["profile" := "minimal"]}
                     (rows 150 Fixture.builder Fixture.store).2).2
    = sent (rows 150 Fixture.builder Fixture.store).2 ++ [r]
    /\ req_params r !! "rows" = Some (Py.str_int n)
    /\ n <= MAX_ROWS.
Proof.
  apply (proj1 (proj2 (proj2 (C6_rows_clamped_unless_overridden
                                Fixture.float_str Fixture.no_records)))).
  vm_compute. reflexivity.
Defined.

(** The generator over [Fixture.stale_cursor] after its first call of
    [next()], which yields the one item of the first page. *)
Definition stale_after_first :=
  search_all_raw Fixture.float_str Fixture.stale_cursor Fixture.client
                 Fixture.builder (Some 50) GenCreated Fixture.store.

Example stale_first_yields :
  exists results,
    stale_after_first.1
    = (Yield 0%nat, GenSuspended "*" 0 results [])
    /\ next_cursor results = Some "next"
    /\ length (sent stale_after_first.2) = 1%nat.
Proof. eexists. vm_compute. repeat split. Qed.

Lemma C8_empty_page_and_missing_cursor_stop_witness :
  ((search_all_raw Fixture.float_str Fixture.stale_cursor Fixture.client
                   Fixture.builder (Some 50)
                   stale_after_first.1.2 stale_after_first.2).1
   = (StopIteration, GenClosed)
   /\ length (sent (search_all_raw Fixture.float_str Fixture.stale_cursor
                      Fixture.client Fixture.builder (Some 50)
                      stale_after_first.1.2 stale_after_first.2).2) = 2%nat)
  /\ (search_all_raw Fixture.float_str Fixture.no_records Fixture.client
                  Fixture.builder None GenCreated Fixture.store).1
  = (StopIteration, GenClosed)
  /\ (exists r,
        sent (search_all_raw Fixture.float_str Fixture.no_records Fixture.client
                             Fixture.builder None GenCreated Fixture.store).2
        = sent Fixture.store ++ [r])
  /\ search_all_raw Fixture.float_str Fixture.three_pages Fixture.client
       Fixture.builder None
       (GenSuspended "cursor2" 299
          {| items := [299%nat]; total_results := 300; next_cursor := None;
             facets_of := None; query := None |} [])
       Fixture.store
     = (StopIteration, GenClosed, Fixture.store).
Proof.
  destruct (C8_empty_page_and_missing_cursor_stop Fixture.float_str
              Fixture.stale_cursor Fixture.client Fixture.builder (Some 50))
    as (Hany & _ & _ & _).
  destruct (C8_empty_page_and_missing_cursor_stop Fixture.float_str
              Fixture.no_records Fixture.client Fixture.builder None)
    as (_ & Hfirst & _ & _).
  destruct (C8_empty_page_and_missing_cursor_stop Fixture.float_str
              Fixture.three_pages Fixture.client Fixture.builder None)
    as (_ & _ & Hlast & _).
  split; [split |].
  - refine (proj1 (Hany stale_after_first.1.2 stale_after_first.2
                     (page_fetch_request Fixture.float_str Fixture.client
                        Fixture.builder 49 "next" stale_after_first.2)
                     _ _ _)).
    + vm_compute. reflexivity.
    + reflexivity.
    + reflexivity.
  - vm_compute. reflexivity.
  - destruct (Hfirst Fixture.store) as (Hstop & Hone & _).
    { intros m Hm. discriminate Hm. }
    { intros r. split; reflexivity. }
    split; [exact Hstop |]. split; [exact Hone |].
    apply Hlast. left. reflexivity.
Defined.

Lemma C9_transport_error_propagates_witness :
  (search_all_raw Fixture.float_str Fixture.server_error Fixture.client
                  Fixture.builder None GenCreated Fixture.store).1
  = (Raised (HTTPStatusError 500), GenClosed).
Proof.
  apply (C9_transport_error_propagates Fixture.float_str Fixture.server_error
           Fixture.client Fixture.builder None GenCreated Fixture.store
           first_request).
  - vm_compute. reflexivity.
  - reflexivity.
Defined.



(** * More of the client *)

(** ** Further builder methods *)

(** [RightsCategories]: the constants the builder uses. *)
Module RightsCategories.
Definition PUBLIC_DOMAIN : string := "*public*".
Definition CREATIVE_COMMONS : string := "*creative*".
Definition COPYRIGHT : string := "*copyright*".
Definition PDM_URI : string := "http://creativecommons.org/publicdomain/mark/1.0/".
Definition CC0_URI : string := "http://creativecommons.org/publicdomain/zero/1.0/".
End RightsCategories.

(** [d.get(k)] on the filter map. *)
Fixpoint dict_get (d : FilterMap) (k : string) : option Value :=
  match d with
  | [] => None
  | (k', v) :: d' => if String.eqb k' k then Some v else dict_get d' k
  end.

(** [list(d.keys())]. *)
Definition dict_keys (d : FilterMap) : list string := map fst d.

(** Truthiness of an [Optional[int]]: [None] and [0] are falsy. *)
Definition int_truthy (n : option Z) : bool :=
  match n with
  | Some n => negb (n =? 0)
  | None => false
  end.

Section MoreBuilder.

Context {Float : Type}.
Implicit Types (w : @World Float) (self : loc).

(** [time_period(start_year, end_year)]: the three range forms, chosen by
    the truthiness of the two years; with neither, nothing is set. *)
Definition time_period (start_year end_year : option Z) self w : loc * World :=
  let s := Py.str_int (default 0 start_year) in
  let e := Py.str_int (default 0 end_year) in
  if int_truthy start_year && int_truthy end_year then
    set_filter (enum_value SearchField.YEAR)
               (VStr ("[" +:+ s +:+ " TO " +:+ e +:+ "]")) self w
  else if int_truthy start_year then
    set_filter (enum_value SearchField.YEAR) (VStr ("[" +:+ s +:+ " TO *]")) self w
  else if int_truthy end_year then
    set_filter (enum_value SearchField.YEAR) (VStr ("[* TO " +:+ e +:+ "]")) self w
  else (self, w).

(** [public_domain()]: the rights filter, then [_reusability]. *)
Definition public_domain self w : loc * World :=
  let '(_, w) :=
    set_filter (enum_value SearchField.RIGHTS)
               (VStr ("(" +:+ RightsCategories.PDM_URI +:+ " OR "
                      +:+ RightsCategories.CC0_URI +:+ ")")) self w in
  reusability (AsEnum Reusability.OPEN) self w.

End MoreBuilder.

(** ** The filter map *)

Section FilterMapProps.

Lemma dict_get_set_eq (d : FilterMap) k v : dict_get (dict_set d k v) k = Some v.
Proof.
  induction d as [|[k' v'] d IH]; cbn [dict_set dict_get].
  - by rewrite String.eqb_refl.
  - destruct (String.eqb k' k) eqn:Hk; cbn [dict_get]; by rewrite Hk.
Qed.

Lemma dict_get_set_ne (d : FilterMap) k k' v :
  k <> k' -> dict_get (dict_set d k v) k' = dict_get d k'.
Proof.
  intros Hne. induction d as [|[k0 v0] d IH]; cbn [dict_set dict_get].
  - by apply String.eqb_neq in Hne as ->.
  - destruct (String.eqb k0 k) eqn:Hk; cbn [dict_get]; [| by rewrite IH].
    apply String.eqb_eq in Hk as ->.
    by apply String.eqb_neq in Hne as ->.
Qed.

Lemma dict_set_set (d : FilterMap) k v1 v2 :
  dict_set (dict_set d k v1) k v2 = dict_set d k v2.
Proof.
  induction d as [|[k' v'] d IH]; cbn [dict_set].
  - by rewrite String.eqb_refl.
  - destruct (String.eqb k' k) eqn:Hk; cbn [dict_set]; rewrite Hk; [done |].
    by rewrite IH.
Qed.

Lemma dict_keys_set_present (d : FilterMap) k v :
  In k (dict_keys d) -> dict_keys (dict_set d k v) = dict_keys d.
Proof.
  induction d as [|[k' v'] d IH]; cbn; [done |].
  intros [-> | Hin].
  - by rewrite String.eqb_refl.
  - destruct (String.eqb k' k) eqn:Hk; cbn; [done |]. f_equal. by apply IH.
Qed.

Lemma dict_keys_set_absent (d : FilterMap) k v :
  ~ In k (dict_keys d) -> dict_keys (dict_set d k v) = dict_keys d ++ [k].
Proof.
  induction d as [|[k' v'] d IH]; cbn; [done |].
  intros Hnot.
  destruct (String.eqb k' k) eqn:Hk.
  - apply String.eqb_eq in Hk. tauto.
  - cbn. f_equal. apply IH. tauto.
Qed.

Lemma dict_keys_set_nodup (d : FilterMap) k v :
  List.NoDup (dict_keys d) -> List.NoDup (dict_keys (dict_set d k v)).
Proof.
  intros Hnd.
  destruct (in_dec string_dec k (dict_keys d)) as [Hin | Hnot].
  - by rewrite dict_keys_set_present.
  - rewrite dict_keys_set_absent by done.
    apply NoDup_ListNoDup, NoDup_app. apply NoDup_ListNoDup in Hnd.
    split; [done |]. split; [| apply NoDup_singleton].
    intros x Hx ->%list_elem_of_singleton. by apply Hnot, list_elem_of_In.
Qed.

End FilterMapProps.

(** ** Further properties of the builder *)

Section MoreBuilderProps.

Context {Float Item : Type}.
Variable float_str : Float -> string.
Variable http_get : list HttpRequest -> HttpRequest -> @Response Item.

Implicit Types (w : @World Float) (self q : loc).

(** The filter dict of a builder. *)
Definition filters_of q w : FilterMap := dict_at w (_filters (builder_at w q)).

Lemma filters_of_set_filter fld value q w :
  filters_of q (set_filter fld value q w).2 = dict_set (filters_of q w) fld value.
Proof.
  unfold filters_of, set_filter, dict_at, builder_at; cbn [snd builders dicts set_dict].
  by rewrite lookup_total_insert_eq.
Qed.

Lemma get_query_string_filters q w :
  get_query_string q w
  = build_query_string (_text_query (builder_at w q)) (Some (filters_of q w)).
Proof. reflexivity. Qed.

(** X1. Last write wins: setting a field twice leaves the filter map, and
    so the compiled query string, exactly as setting it once to the last
    value. *)
Theorem X1_filter_last_write_wins (fld : string) (v1 v2 : Value) q w :
  filters_of q (set_filter fld v2 q (set_filter fld v1 q w).2).2
  = filters_of q (set_filter fld v2 q w).2
  /\ get_query_string q (set_filter fld v2 q (set_filter fld v1 q w).2).2
     = get_query_string q (set_filter fld v2 q w).2.
Proof.
  assert (Hf : filters_of q (set_filter fld v2 q (set_filter fld v1 q w).2).2
               = filters_of q (set_filter fld v2 q w).2)
    by (by rewrite !filters_of_set_filter, dict_set_set).
  split; [done |]. by rewrite !get_query_string_filters, Hf.
Qed.

(** X2. After a setter the filter map holds the value under the field,
    every other field is as before, the keys keep their order (a new
    field goes last, an existing one keeps its place), and a map without
    duplicate keys stays without. *)
Theorem X2_filter_map_after_set (fld : string) (value : Value) q w :
  let before := filters_of q w in
  let after := filters_of q (set_filter fld value q w).2 in
  dict_get after fld = Some value
  /\ (forall other, fld <> other -> dict_get after other = dict_get before other)
  /\ (In fld (dict_keys before) -> dict_keys after = dict_keys before)
  /\ (~ In fld (dict_keys before) -> dict_keys after = dict_keys before ++ [fld])
  /\ (List.NoDup (dict_keys before) -> List.NoDup (dict_keys after)).
Proof.
  cbv zeta. rewrite filters_of_set_filter.
  split; [apply dict_get_set_eq |].
  split; [intros other Hne; by apply dict_get_set_ne |].
  split; [apply dict_keys_set_present |].
  split; [apply dict_keys_set_absent | apply dict_keys_set_nodup].
Qed.

(** X3. Two builders share nothing: a filter set on the first of two
    newly made builders shows in its query string and leaves the second
    builder's query string empty. *)
Theorem X3_new_builders_independent (fld : string) (value : Value) w :
  let q1 := (QueryBuilder_init w).1 in
  let w1 := (QueryBuilder_init w).2 in
  let q2 := (QueryBuilder_init w1).1 in
  let w2 := (QueryBuilder_init w1).2 in
  q1 <> q2
  /\ get_query_string q1 (set_filter fld value q1 w2).2 = filter_term fld value
  /\ get_query_string q2 (set_filter fld value q1 w2).2 = EmptyString.
Proof.
  cbv zeta.
  assert (Hq : fresh (dom (builders (QueryBuilder_init w).2))
               <> fresh (dom (builders w))).
  { intros Heq. apply (is_fresh (dom (builders (QueryBuilder_init w).2))).
    rewrite Heq. unfold QueryBuilder_init; cbn. rewrite dom_insert_L. set_solver. }
  assert (Hd : fresh (dom (dicts (QueryBuilder_init w).2))
               <> fresh (dom (dicts w))).
  { intros Heq. apply (is_fresh (dom (dicts (QueryBuilder_init w).2))).
    rewrite Heq. unfold QueryBuilder_init; cbn. rewrite dom_insert_L. set_solver. }
  split; [by cbn |].
  unfold get_query_string, set_filter, builder_at, dict_at, QueryBuilder_init in *;
    cbn [fst snd builders dicts lists set_builder set_dict set_list] in *.
  split.
  - rewrite (lookup_total_insert_ne _ _ _ _ Hq), !lookup_total_insert_eq.
    cbn [_filters _text_query].
    by rewrite (lookup_total_insert_ne _ _ _ _ Hd), !lookup_total_insert_eq.
  - rewrite !lookup_total_insert_eq. cbn [_filters _text_query].
    rewrite (lookup_total_insert_ne _ _ _ _ Hq), !lookup_total_insert_eq.
    cbn [_filters].
    assert (Hd' := not_eq_sym Hd).
    by rewrite (lookup_total_insert_ne _ _ _ _ Hd'), lookup_total_insert_eq.
Qed.

End MoreBuilderProps.

(** ** Requests of particular builders *)

Section RequestProps.

Context {Float Item : Type}.
Variable float_str : Float -> string.
Variable http_get : list HttpRequest -> HttpRequest -> @Response Item.

Implicit Types (w : @World Float) (self : EuropeanaClient) (q : loc).

Lemma builder_at_update (f : @QueryBuilder Float -> @QueryBuilder Float) q w :
  builder_at (update_builder f q w).2 q = f (builder_at w q).
Proof.
  unfold update_builder, builder_at; cbn [snd builders set_builder].
  by rewrite lookup_total_insert_eq.
Qed.

Lemma new_builder_state w :
  let q := (@QueryBuilder_init Float w).1 in
  let w' := (@QueryBuilder_init Float w).2 in
  builder_at w' q
  = {| _filters := fresh (dom (dicts w)); _text_query := None; _geographic := None;
       _facets := fresh (dom (lists w)); _profile := AsEnum Profile.RICH;
       _rows := DEFAULT_ROWS; _reusability := None; _media_flag := None;
       _thumbnail_flag := None |}
  /\ dict_at w' (fresh (dom (dicts w))) = []
  /\ list_at w' (fresh (dom (lists w))) = [].
Proof.
  unfold QueryBuilder_init, builder_at, dict_at, list_at;
    cbn [fst snd builders dicts lists set_builder set_dict set_list].
  by rewrite !lookup_total_insert_eq.
Qed.

(** X4. The request of a newly made builder: the match-all query in place
    of the empty query string, 100 rows, the rich profile, the key and
    the cursor, and no other parameter. *)
Theorem X4_new_builder_request self (cursor : string) w :
  get_query_string (QueryBuilder_init w).1 (QueryBuilder_init w).2 = EmptyString
  /\ search_raw_params float_str self (QueryBuilder_init w).1 cursor ∅
                       (QueryBuilder_init w).2
     = <["profile" := "rich"]>
         (<["wskey" := api_key self]>
            (<["cursor" := cursor]>
               (<["rows" := "100"]> (<["query" := "*:*"]> ∅)))).
Proof.
  destruct (new_builder_state w) as (Hb & Hd & Hl).
  assert (Hq : get_query_string (QueryBuilder_init w).1 (QueryBuilder_init w).2
               = EmptyString).
  { unfold get_query_string. rewrite Hb. cbn [_text_query _filters]. by rewrite Hd. }
  split; [done |].
  unfold search_raw_params, requested_facets. rewrite Hq, Hb.
  cbn [_facets _rows _profile _geographic _reusability _media_flag _thumbnail_flag].
  rewrite Hl. cbn [fmap option_fmap option_map param_if Py.str_truthy].
  by rewrite (left_id_L ∅ (∪)).
Qed.

Lemma params_reusability self q cursor kwargs w :
  kwargs !! "reusability" = None ->
  search_raw_params float_str self q cursor kwargs w !! "reusability"
  = match _reusability (builder_at w q) with
    | Some r => if str_or_enum_truthy r then Some (str_or_value r) else None
    | None => None
    end.
Proof.
  intros H. unfold search_raw_params; cbv zeta.
  rewrite lookup_union, H.
  rewrite !lookup_param_if_ne, lookup_param_if_eq by done.
  destruct (_reusability (builder_at w q)) as [r|];
    [destruct (str_or_enum_truthy r); [done |] |];
    by rewrite !lookup_param_if_ne, !lookup_insert_ne by done.
Qed.

Lemma params_media self q cursor kwargs w :
  kwargs !! "media" = None ->
  search_raw_params float_str self q cursor kwargs w !! "media"
  = Py.str_bool_lower <$> _media_flag (builder_at w q).
Proof.
  intros H. unfold search_raw_params; cbv zeta.
  rewrite lookup_union, H.
  rewrite !lookup_param_if_ne, lookup_param_if_eq by done.
  destruct (_media_flag (builder_at w q)); [done |].
  by rewrite !lookup_param_if_ne, !lookup_insert_ne by done.
Qed.

(** X5. Presence against truthiness.  The media flag is sent whenever it
    has been set, [False] included, as lower-case [true] or [false]; a
    reusability level that is the empty string is not sent at all, and an
    enum level is sent as its value. *)
Theorem X5_flags_and_reusability self q (cursor : string) w :
  (forall has_media,
      search_raw_params float_str self q cursor ∅ (with_media has_media q w).2
        !! "media"
      = Some (if has_media then "true" else "false"))
  /\ search_raw_params float_str self q cursor ∅
                       (reusability (AsStr EmptyString) q w).2 !! "reusability"
     = None
  /\ (forall level,
        search_raw_params float_str self q cursor ∅
                          (reusability (AsEnum level) q w).2 !! "reusability"
        = Some (enum_value level)).
Proof.
  split; [| split].
  - intros has_media. rewrite params_media by apply lookup_empty.
    unfold with_media. rewrite builder_at_update. by destruct has_media.
  - rewrite params_reusability by apply lookup_empty.
    unfold reusability. by rewrite builder_at_update.
  - intros level. rewrite params_reusability by apply lookup_empty.
    unfold reusability. by rewrite builder_at_update.
Qed.

End RequestProps.

(** ** Range and rights filters *)

Section RangeProps.

Context {Float Item : Type}.
Variable float_str : Float -> string.

Implicit Types (w : @World Float) (self : EuropeanaClient) (q : loc).

(** A value that opens with a bracket and has a space is wrapped by the
    compiler. *)
Lemma needs_quotes_bracket (a rest : string) :
  needs_quotes ("[" +:+ a +:+ " " +:+ rest) = true.
Proof.
  apply needs_quotes_iff. split.
  - exists ("[" +:+ a), rest. by rewrite append_assoc.
  - intros [[m Hm] _]. unfold Py.dquote in Hm.
    rewrite !append_cons in Hm. discriminate Hm.
Qed.

Lemma filter_term_bracket (fld a rest : string) :
  filter_term fld (VStr ("[" +:+ a +:+ " " +:+ rest))
  = fld +:+ ":" +:+ Py.dquote +:+ ("[" +:+ a +:+ " " +:+ rest) +:+ Py.dquote.
Proof. unfold filter_term. cbn [value_str]. by rewrite needs_quotes_bracket. Qed.

Lemma int_truthy_nonzero (n : Z) : n <> 0 -> int_truthy (Some n) = true.
Proof. intros Hn. cbn. by apply negb_true_iff, Z.eqb_neq. Qed.

(** X6. [time_period] with two non-zero years stores the closed range
    under [YEAR]; a year that is [None] or [0] counts as not given, so
    one non-zero year gives the range open at the other end and none
    leaves the builder untouched.  The compiler emits every one of these
    ranges inside double quotes, because it contains a space. *)
Theorem X6_time_period_ranges (s e : Z) q w :
  s <> 0 -> e <> 0 ->
  let closed := "[" +:+ Py.str_int s +:+ " TO " +:+ Py.str_int e +:+ "]" in
  let from := "[" +:+ Py.str_int s +:+ " TO *]" in
  let until := "[* TO " +:+ Py.str_int e +:+ "]" in
  dict_get (filters_of q (time_period (Some s) (Some e) q w).2) "YEAR"
  = Some (VStr closed)
  /\ dict_get (filters_of q (time_period (Some s) None q w).2) "YEAR"
     = Some (VStr from)
  /\ dict_get (filters_of q (time_period None (Some e) q w).2) "YEAR"
     = Some (VStr until)
  /\ time_period (Some s) (Some 0) q w = time_period (Some s) None q w
  /\ time_period (Some 0) (Some e) q w = time_period None (Some e) q w
  /\ time_period (Some 0) (Some 0) q w = (q, w)
  /\ time_period None None q w = (q, w)
  /\ filter_term "YEAR" (VStr closed)
     = "YEAR:" +:+ Py.dquote +:+ closed +:+ Py.dquote
  /\ filter_term "YEAR" (VStr from) = "YEAR:" +:+ Py.dquote +:+ from +:+ Py.dquote
  /\ filter_term "YEAR" (VStr until) = "YEAR:" +:+ Py.dquote +:+ until +:+ Py.dquote.
Proof.
  intros Hs He closed from until.
  assert (Hts := int_truthy_nonzero s Hs). assert (Hte := int_truthy_nonzero e He).
  unfold time_period. rewrite Hts, Hte. cbn [andb int_truthy Z.eqb negb].
  rewrite !filters_of_set_filter, !dict_get_set_eq.
  repeat (split; [reflexivity |]).
  split; [apply (filter_term_bracket "YEAR" (Py.str_int s) ("TO " +:+ Py.str_int e +:+ "]")) |].
  split; [apply (filter_term_bracket "YEAR" (Py.str_int s) "TO *]") |].
  apply (filter_term_bracket "YEAR" "*" ("TO " +:+ Py.str_int e +:+ "]")).
Qed.

(** X7. [public_domain] stores the two public-domain URIs joined by
    [OR] under [RIGHTS], which the compiler emits inside double quotes,
    and makes the request carry [reusability=open]. *)
Theorem X7_public_domain self q (cursor : string) w :
  dict_get (filters_of q (public_domain q w).2) "RIGHTS"
  = Some (VStr ("(http://creativecommons.org/publicdomain/mark/1.0/"
                +:+ " OR http://creativecommons.org/publicdomain/zero/1.0/)"))
  /\ filter_term "RIGHTS"
       (VStr ("(http://creativecommons.org/publicdomain/mark/1.0/"
              +:+ " OR http://creativecommons.org/publicdomain/zero/1.0/)"))
     = "RIGHTS:" +:+ Py.dquote
       +:+ "(http://creativecommons.org/publicdomain/mark/1.0/"
       +:+ " OR http://creativecommons.org/publicdomain/zero/1.0/)"
       +:+ Py.dquote
  /\ search_raw_params float_str self q cursor ∅ (public_domain q w).2
       !! "reusability" = Some "open".
Proof.
  split; [| split; [vm_compute; reflexivity |]].
  - unfold public_domain, reusability, update_builder, set_filter, filters_of,
      builder_at, dict_at;
      cbn [fst snd builders dicts set_builder set_dict].
    rewrite !lookup_total_insert_eq. cbn [_filters].
    apply dict_get_set_eq.
  - rewrite params_reusability by apply lookup_empty.
    unfold public_domain, reusability, set_filter. cbn [fst snd].
    by rewrite builder_at_update.
Qed.

End RangeProps.

(** ** Facet registration, call by call *)

Section FacetProps.

Context {Float : Type}.
Implicit Types (w : @World Float) (q : loc).

(** The loop over two lists of fields is the loop over the first and, if
    that did not raise, the loop over the second. *)
Lemma facets_loop_app (a b : list StrOrEnum) q w :
  facets_loop (a ++ b) q w
  = match facets_loop a q w with
    | (Ret _, w') => facets_loop b q w'
    | (Raise e, w') => (Raise e, w')
    end.
Proof.
  revert w. induction a as [|f a IH]; intros w; [done |].
  cbn [app facets_loop].
  destruct (negb (is_facetable (str_or_value f))); [done |]. apply IH.
Qed.

(** X8. One call of [facets] with two groups of fields does what two
    calls do, the second made only if the first succeeds.  A call that is
    rejected has already registered the accepted fields that come before
    the rejected one, and none of those after it. *)
Theorem X8_facets_sequential_and_partial :
  (forall (a b : list StrOrEnum) q w,
      facets (a ++ b) q w
      = match facets a q w with
        | (Ret _, w') => facets b q w'
        | (Raise e, w') => (Raise e, w')
        end)
  /\ (forall (ok rest : list StrOrEnum) (bad : StrOrEnum) q w,
        Forall (fun f => is_facetable (str_or_value f) = true) ok ->
        is_facetable (str_or_value bad) = false ->
        exists w',
          facets (ok ++ bad :: rest) q w
          = (Raise (ValueError (not_facetable_msg (str_or_value bad))), w')
          /\ list_at w' (_facets (builder_at w' q))
             = list_at w (_facets (builder_at w q)) ++ map str_or_value ok).
Proof.
  split.
  - intros a b q w. unfold facets. rewrite facets_loop_app.
    by destruct (facets_loop a q w) as [[[]|e] w'].
  - intros ok rest bad q w Hok Hbad.
    destruct (facets_loop_accepts ok q w Hok) as (w1 & Hrun & Hb & _ & _ & Hl).
    exists w1. unfold facets. rewrite facets_loop_app, Hrun.
    cbn [facets_loop]. rewrite Hbad. cbn [negb]. split; [done |].
    unfold builder_at in *. by rewrite Hb.
Qed.

End FacetProps.

(** ** What [search_raw] reads from the body *)

Section BodyProps.

Context {Float Item : Type}.
Variable float_str : Float -> string.
Variable http_get : list HttpRequest -> HttpRequest -> @Response Item.

Implicit Types (w : @World Float) (self : EuropeanaClient) (q : loc).

(** A successful answer always gives results.  A key missing from the
    body is read as no items, a total of zero, no cursor; the facets of
    the body are kept only when the builder asked for facets, and then a
    missing key is read as no facets; the query string comes from the
    builder, not from the answer. *)
Lemma search_raw_reads_body self q (cursor : string) kwargs w :
  let response := http_get (sent w) (page_request float_str self q cursor kwargs w) in
  is_success response = true ->
  (search_raw float_str http_get self q cursor kwargs w).1
  = Ret {| items := default [] (js_items (json response));
           total_results := default 0 (js_totalResults (json response));
           next_cursor := js_nextCursor (json response);
           facets_of := match requested_facets q w with
                        | Some _ => Some (default [] (js_facets (json response)))
                        | None => None
                        end;
           query := Some (get_query_string q w) |}
  /\ (json response
      = {| js_items := None; js_totalResults := None;
           js_nextCursor := None; js_facets := None |} ->
      requested_facets q w = None ->
      (search_raw float_str http_get self q cursor kwargs w).1
      = Ret {| items := []; total_results := 0; next_cursor := None;
               facets_of := None; query := Some (get_query_string q w) |}).
Proof.
  intros response Hok.
  assert (Hres : (search_raw float_str http_get self q cursor kwargs w).1
                 = Ret {| items := default [] (js_items (json response));
                          total_results := default 0 (js_totalResults (json response));
                          next_cursor := js_nextCursor (json response);
                          facets_of :=
                            match requested_facets q w with
                            | Some _ => Some (default [] (js_facets (json response)))
                            | None => None
                            end;
                          query := Some (get_query_string q w) |}).
  { unfold search_raw; cbv zeta.
    fold (page_request float_str self q cursor kwargs w). fold response.
    unfold raise_for_status. by rewrite Hok. }
  split; [done |].
  intros Hbody Hnofacets. rewrite Hres, Hbody, Hnofacets. reflexivity.
Qed.

End BodyProps.

(** ** Structured results *)

(** The comprehension [[f(x) for x in xs]] raises [e] exactly when [xs]
    has an element on which [f] raises [e] and [f] returns on every
    element before it. *)
Definition first_failure {A B : Type} (f : A -> Res B) (xs : list A) (e : Exn)
  : Prop :=
  exists ok bad rest,
    xs = ok ++ bad :: rest
    /\ Forall (fun x => exists y, f x = Ret y) ok
    /\ f bad = Raise e.

Section Comprehension.

Context {A B : Type}.
Variable f : A -> Res B.

Lemma comprehension_ret (xs : list A) (ys : list B) :
  comprehension f xs = Ret ys <-> Forall2 (fun x y => f x = Ret y) xs ys.
Proof.
  revert ys. induction xs as [|x xs IH]; intros ys; cbn [comprehension].
  - split.
    + intros [= <-]. constructor.
    + intros H. by inversion H.
  - destruct (f x) as [y|e] eqn:Hx.
    + destruct (comprehension f xs) as [ys'|e] eqn:Hxs.
      * split.
        -- intros [= <-]. constructor; [done |]. by apply IH.
        -- intros H. inversion H as [|? y0 ? ys0 Hy Hrest]; subst.
           apply IH in Hrest. congruence.
      * split; [done |].
        intros H. inversion H as [|? y0 ? ys0 Hy Hrest]; subst.
        apply IH in Hrest. discriminate Hrest.
    + split; [done |].
      intros H. inversion H as [|? y0 ? ys0 Hy Hrest]; subst. congruence.
Qed.

Lemma comprehension_raise (xs : list A) (e : Exn) :
  comprehension f xs = Raise e <-> first_failure f xs e.
Proof.
  unfold first_failure.
  induction xs as [|x xs IH]; cbn [comprehension].
  - split; [done |]. intros (ok & bad & rest & Hxs & _).
    by destruct ok.
  - destruct (f x) as [y|e'] eqn:Hx.
    + destruct (comprehension f xs) as [ys'|e'] eqn:Hxs.
      * split; [done |].
        intros ([|x0 ok] & bad & rest & Hsplit & Hok & Hbad);
          cbn in Hsplit; simplify_eq; [congruence |].
        inversion Hok; subst.
        assert (Ret ys' = Raise e) as Habs; [| discriminate Habs].
        apply IH. by exists ok, bad, rest.
      * split.
        -- intros [= ->].
           destruct (proj1 IH eq_refl) as (ok & bad & rest & -> & Hok & Hbad).
           exists (x :: ok), bad, rest.
           split; [done |]. split; [| done].
           constructor; [by exists y | done].
        -- intros ([|x0 ok] & bad & rest & Hsplit & Hok & Hbad);
             cbn in Hsplit; simplify_eq; [congruence |].
           inversion Hok; subst.
           apply IH. by exists ok, bad, rest.
    + split.
      * intros [= ->]. exists [], x, xs. by repeat split.
      * intros ([|x0 ok] & bad & rest & Hsplit & Hok & Hbad);
          cbn in Hsplit; simplify_eq; [congruence |].
        inversion Hok as [|? ? [y Hy] ?]; subst. congruence.
Qed.

Lemma comprehension_map (g : A -> B) (xs : list A) :
  Forall (fun x => f x = Ret (g x)) xs ->
  comprehension f xs = Ret (map g xs).
Proof.
  intros H. apply comprehension_ret.
  induction H; cbn [map]; by constructor.
Qed.

End Comprehension.

Section Structured.

Context {Float Item EItem EFacet : Type}.
Variable float_str : Float -> string.
Variable http_get : list HttpRequest -> HttpRequest -> @Response Item.
Variable item_from_dict : Item -> Res EItem.
Variable facet_from_dict : Item -> Res EFacet.
Variable self : EuropeanaClient.

Implicit Types (w : @World Float) (q : loc).

Abbreviation search_s :=
  (search float_str http_get item_from_dict facet_from_dict self).
Abbreviation search_r := (search_raw float_str http_get self).
Abbreviation parse := (from_search_results item_from_dict facet_from_dict).

(** When the parsing returns. *)
Lemma from_search_results_ret (r : @SearchResults Item)
    (s : @StructuredSearchResults EItem EFacet) :
  parse r = Ret s
  <-> Forall2 (fun x y => item_from_dict x = Ret y) (items r) (s_items s)
      /\ s_total_results s = total_results r
      /\ s_next_cursor s = next_cursor r
      /\ s_query s = query r
      /\ match facets_of r with
         | Some ((_ :: _) as fs) =>
             exists parsed_facets,
               s_facets s = Some parsed_facets
               /\ Forall2 (fun x y => facet_from_dict x = Ret y) fs parsed_facets
         | _ => s_facets s = None
         end.
Proof.
  unfold from_search_results.
  destruct (comprehension item_from_dict (items r)) as [its|e] eqn:Hits.
  - assert (Hfacets : forall fo,
               match facets_of r with
               | Some ((_ :: _) as fs) =>
                   match comprehension facet_from_dict fs with
                   | Raise e => Raise e
                   | Ret parsed_facets => Ret (Some parsed_facets)
                   end
               | _ => Ret None
               end = Ret fo
               <-> match facets_of r with
                   | Some ((_ :: _) as fs) =>
                       exists parsed_facets,
                         fo = Some parsed_facets
                         /\ Forall2 (fun x y => facet_from_dict x = Ret y)
                                    fs parsed_facets
                   | _ => fo = None
                   end).
    { intros fo. destruct (facets_of r) as [[|x fs]|].
      - split; [by intros [= <-] | by intros ->].
      - destruct (comprehension facet_from_dict (x :: fs)) as [pfs|e] eqn:Hfs.
        + apply comprehension_ret in Hfs. split.
          * intros [= <-]. by exists pfs.
          * intros (pfs' & -> & H'). apply comprehension_ret in H'.
            apply comprehension_ret in Hfs. congruence.
        + split; [done |]. intros (pfs' & -> & H').
          apply comprehension_ret in H'. congruence.
      - split; [by intros [= <-] | by intros ->]. }
    destruct (match facets_of r with
              | Some ((_ :: _) as fs) =>
                  match comprehension facet_from_dict fs with
                  | Raise e => Raise e
                  | Ret parsed_facets => Ret (Some parsed_facets)
                  end
              | _ => Ret None
              end) as [fo|e] eqn:Hfo.
    + split.
      * intros [= <-]. cbn. split; [by apply comprehension_ret |].
        repeat (split; [done |]). by apply Hfacets.
      * intros (Hi & Ht & Hc & Hq & Hf). destruct s as [si st sc sf sq].
        cbn in *. apply comprehension_ret in Hi. apply Hfacets in Hf.
        congruence.
    + split; [done |]. intros (_ & _ & _ & _ & Hf).
      apply Hfacets in Hf. discriminate Hf.
  - split; [done |]. intros (Hi & _). apply comprehension_ret in Hi. congruence.
Qed.

(** When the parsing raises: at the first item that does not parse, or,
    when every item parses, at the first facet that does not. *)
Lemma from_search_results_raise (r : @SearchResults Item) (e : Exn) :
  parse r = Raise e
  <-> first_failure item_from_dict (items r) e
      \/ (Forall (fun x => exists y, item_from_dict x = Ret y) (items r)
          /\ exists fs, facets_of r = Some fs
                        /\ first_failure facet_from_dict fs e).
Proof.
  unfold from_search_results.
  destruct (comprehension item_from_dict (items r)) as [its|e'] eqn:Hits.
  - assert (Hall : Forall (fun x => exists y, item_from_dict x = Ret y) (items r)).
    { apply comprehension_ret in Hits.
      induction Hits; constructor; [by eexists | done]. }
    assert (Hnot : forall e0, ~ first_failure item_from_dict (items r) e0).
    { intros e0 H. apply comprehension_raise in H. congruence. }
    destruct (facets_of r) as [[|x fs]|].
    + split; [done |]. intros [H | (_ & fs' & [= <-] & ok & bad & rest & H & _)].
      * by apply Hnot in H.
      * by destruct ok.
    + destruct (comprehension facet_from_dict (x :: fs)) as [pfs|e'] eqn:Hfs.
      * split; [done |]. intros [H | (_ & fs' & [= <-] & H)].
        -- by apply Hnot in H.
        -- apply comprehension_raise in H. congruence.
      * split.
        -- intros [= ->]. right. split; [done |]. exists (x :: fs).
           split; [done |]. by apply comprehension_raise.
        -- intros [H | (_ & fs' & [= <-] & H)].
           ++ by apply Hnot in H.
           ++ apply comprehension_raise in H. congruence.
    + split; [done |]. intros [H | (_ & fs' & Hfs & _)]; [| done].
      by apply Hnot in H.
  - split.
    + intros [= ->]. left. by apply comprehension_raise.
    + intros [H | (Hall & _)].
      * apply comprehension_raise in H. congruence.
      * assert (exists ys, comprehension item_from_dict (items r) = Ret ys)
          as [ys Hys]; [| congruence].
        clear Hits. induction Hall as [|x xs [y Hy] _ [ys IH]].
        -- by exists [].
        -- exists (y :: ys). cbn [comprehension]. by rewrite Hy, IH.
Qed.

(** [search] is [search_raw] followed by the parsing, on the store
    [search_raw] leaves. *)
Lemma search_cases q (cursor : string) kwargs w :
  search_s q cursor kwargs w
  = (match (search_r q cursor kwargs w).1 with
     | Ret r => parse r
     | Raise e => Raise e
     end, (search_r q cursor kwargs w).2).
Proof. unfold search. by destruct (search_r q cursor kwargs w) as [[r|e] w']. Qed.

(** X9. [search] sends the request [search_raw] sends and leaves the
    same store, whether it returns or raises.  An exception of
    [search_raw] is raised by [search].  When [search_raw] returns, [search]
    returns exactly the results whose items are the parsed items of the
    raw results, one for one and in the same order, with the same
    total, cursor and query, and whose facets are the parsed facets, or
    absent when the raw results have none or an empty list; and it
    raises exactly the exception of the first item that does not parse
    or, when every item parses, of the first facet that does not. *)
Theorem X9_search_parses_search_raw q (cursor : string) kwargs w :
  (search float_str http_get item_from_dict facet_from_dict self
     q cursor kwargs w).2 = (search_raw float_str http_get self q cursor kwargs w).2
  /\ (forall e, (search_raw float_str http_get self q cursor kwargs w).1 = Raise e ->
                (search float_str http_get item_from_dict facet_from_dict self
                   q cursor kwargs w).1 = Raise e)
  /\ (forall r, (search_raw float_str http_get self q cursor kwargs w).1 = Ret r ->
        (forall s,
            (search float_str http_get item_from_dict facet_from_dict self
               q cursor kwargs w).1 = Ret s
            <-> Forall2 (fun x y => item_from_dict x = Ret y) (items r) (s_items s)
                /\ s_total_results s = total_results r
                /\ s_next_cursor s = next_cursor r
                /\ s_query s = query r
                /\ match facets_of r with
                   | Some ((_ :: _) as fs) =>
                       exists parsed_facets,
                         s_facets s = Some parsed_facets
                         /\ Forall2 (fun x y => facet_from_dict x = Ret y)
                                    fs parsed_facets
                   | _ => s_facets s = None
                   end)
        /\ (forall e,
              (search float_str http_get item_from_dict facet_from_dict self
                 q cursor kwargs w).1 = Raise e
              <-> first_failure item_from_dict (items r) e
                  \/ (Forall (fun x => exists y, item_from_dict x = Ret y) (items r)
                      /\ exists fs, facets_of r = Some fs
                                    /\ first_failure facet_from_dict fs e))).
Proof.
  rewrite search_cases. cbn [fst snd].
  split; [done |]. split.
  - by intros e ->.
  - intros r ->. split.
    + intros s. apply from_search_results_ret.
    + intros e. apply from_search_results_raise.
Qed.

(** *** [search_all] when every record served parses *)

Section Served.

(** [parse_item] and [parse_facet] give the parsed value of the records
    that parse. *)
Variable parse_item : Item -> EItem.
Variable parse_facet : Item -> EFacet.

(** The parsed results, for results all of whose records parse. *)
Definition parsed_results (r : @SearchResults Item)
  : @StructuredSearchResults EItem EFacet :=
  {| s_items := map parse_item (items r);
     s_total_results := total_results r;
     s_next_cursor := next_cursor r;
     s_facets := match facets_of r with
                 | Some ((_ :: _) as fs) => Some (map parse_facet fs)
                 | _ => None
                 end;
     s_query := query r |}.

(** The frame of [search_all] that corresponds to a frame of
    [search_all_raw]: the same locals, with the results and the items
    still to visit parsed. *)
Definition parse_state (g : GenState (@SearchResults Item) Item)
  : GenState (@StructuredSearchResults EItem EFacet) EItem :=
  match g with
  | GenCreated => GenCreated
  | GenSuspended cursor rf results rest =>
      GenSuspended cursor rf (parsed_results results) (map parse_item rest)
  | GenClosed => GenClosed
  end.

Definition parse_outcome (o : Outcome Item) : Outcome EItem :=
  match o with
  | Yield x => Yield (parse_item x)
  | StopIteration => StopIteration
  | Raised e => Raised e
  end.

Definition parse_end (e : DrainEnd (@SearchResults Item) Item)
  : DrainEnd (@StructuredSearchResults EItem EFacet) EItem :=
  match e with
  | Exhausted => Exhausted
  | Failed e => Failed e
  | StillRunning g => StillRunning (parse_state g)
  end.

Lemma from_search_results_parsed (r : @SearchResults Item) :
  Forall (fun x => item_from_dict x = Ret (parse_item x)) (items r) ->
  (forall fs, facets_of r = Some fs ->
              Forall (fun x => facet_from_dict x = Ret (parse_facet x)) fs) ->
  parse r = Ret (parsed_results r).
Proof.
  intros Hi Hf. unfold from_search_results, parsed_results.
  rewrite (comprehension_map _ _ _ Hi).
  destruct (facets_of r) as [[|x fs]|]; [done | | done].
  by rewrite (comprehension_map _ _ _ (Hf _ eq_refl)).
Qed.

(** Every record in every answer of the remote parses. *)
Hypothesis served_items : forall answered request,
  Forall (fun x => item_from_dict x = Ret (parse_item x))
         (default [] (js_items (json (http_get answered request)))).
Hypothesis served_facets : forall answered request,
  Forall (fun x => facet_from_dict x = Ret (parse_facet x))
         (default [] (js_facets (json (http_get answered request)))).

Lemma search_served q (cursor : string) kwargs w :
  search_s q cursor kwargs w
  = (match (search_r q cursor kwargs w).1 with
     | Ret r => Ret (parsed_results r)
     | Raise e => Raise e
     end, (search_r q cursor kwargs w).2).
Proof.
  rewrite search_cases. f_equal.
  destruct (search_r q cursor kwargs w).1 as [r|e] eqn:Hr; [| done].
  apply from_search_results_parsed.
  - unfold search_raw in Hr; cbv zeta in Hr.
    destruct (raise_for_status _); [| discriminate Hr].
    cbn in Hr. injection Hr as <-. cbn. apply served_items.
  - intros fs Hfs. unfold search_raw in Hr; cbv zeta in Hr.
    destruct (raise_for_status _); [| discriminate Hr].
    cbn in Hr. injection Hr as <-. cbn in Hfs.
    destruct (requested_facets q w); [| discriminate Hfs].
    injection Hfs as <-. apply served_facets.
Qed.

Variable max_records : option Z.

Abbreviation next_s q :=
  (search_all float_str http_get item_from_dict facet_from_dict self q max_records).
Abbreviation next_r q := (search_all_raw float_str http_get self q max_records).

Lemma last_page_parsed (r : @SearchResults Item) :
  last_page s_items s_next_cursor (parsed_results r)
  = last_page items next_cursor r.
Proof. unfold last_page. cbn. by rewrite length_map. Qed.

Lemma loop_top_parsed q (cursor : string) (rf : Z) w :
  loop_top (fun page_query cursor => search_s page_query cursor ∅)
           s_items q max_records cursor rf w
  = let '(o, g, w') :=
      loop_top (fun page_query cursor => search_r page_query cursor ∅)
               items q max_records cursor rf w in
    (parse_outcome o, parse_state g, w').
Proof.
  unfold loop_top. destruct (page_rows max_records rf) as [rows|]; [| done].
  destruct (deepcopy q w) as [page_query w1]. rewrite search_served.
  destruct (search_r page_query cursor ∅ _) as [[r|e] w']; [| done].
  cbn [fst snd parsed_results s_items]. by destruct (items r).
Qed.

(** One call of [next()] on [search_all] is the call on [search_all_raw]
    with its outcome parsed. *)
Lemma next_parsed q g w :
  next_s q (parse_state g) w
  = let '(o, g', w') := next_r q g w in (parse_outcome o, parse_state g', w').
Proof.
  destruct g as [|cursor rf results rest|]; unfold search_all, search_all_raw, next;
    cbn [parse_state]; [apply loop_top_parsed | | done].
  unfold resume. destruct (budget_reached max_records (rf + 1)); [done |].
  destruct rest as [|x rest]; [| done]. cbn [map].
  rewrite last_page_parsed.
  destruct (last_page items next_cursor results); [done |].
  apply loop_top_parsed.
Qed.

Lemma drain_parsed (fuel : nat) q g w :
  drain (fun page_query cursor => search_s page_query cursor ∅)
        s_items s_next_cursor q max_records fuel (parse_state g) w
  = let '(xs, e, w') :=
      drain (fun page_query cursor => search_r page_query cursor ∅)
            items next_cursor q max_records fuel g w in
    (map parse_item xs, parse_end e, w').
Proof.
  revert g w. induction fuel as [|fuel IH]; intros g w; [done |].
  cbn [drain].
  change (next (fun page_query cursor => search_s page_query cursor ∅)
               s_items s_next_cursor q max_records (parse_state g) w)
    with (next_s q (parse_state g) w).
  change (next (fun page_query cursor => search_r page_query cursor ∅)
               items next_cursor q max_records g w)
    with (next_r q g w).
  rewrite next_parsed.
  destruct (next_r q g w) as [[[x| |e] g'] w']; cbn [parse_outcome]; [| done..].
  rewrite IH. by destruct (drain _ _ _ _ _ fuel g' w') as [[xs e] w''].
Qed.

End Served.

(** *** [search_all] at a page that does not parse *)

Section Unparsed.

Variable q : loc.
Variable max_records : option Z.

Implicit Types
  (gs : GenState (@StructuredSearchResults EItem EFacet) EItem).

Abbreviation next_str :=
  (search_all float_str http_get item_from_dict facet_from_dict self q max_records).
Abbreviation loop_top_str :=
  (loop_top (fun page_query cursor => search_s page_query cursor ∅)
            s_items q max_records).

(** One call of [next()] on [search_all] stops or yields a buffered item
    without touching the store, or goes once through the top of the
    loop. *)
Lemma next_structured_cases gs w :
  next_str gs w = (StopIteration, GenClosed, w)
  \/ (exists x gs', next_str gs w = (Yield x, gs', w))
  \/ (exists cursor rf rows,
         page_rows max_records rf = Some rows
         /\ next_str gs w = loop_top_str cursor rf w).
Proof.
  destruct gs as [|c rf results rest|]; unfold search_all, next.
  - destruct (page_rows max_records 0) as [rows|] eqn:Hrows.
    + right; right. by exists "*", 0, rows.
    + left. unfold loop_top. by rewrite Hrows.
  - unfold resume.
    destruct (budget_reached max_records (rf + 1)); [by left |].
    destruct rest as [|x rest].
    + destruct (last_page s_items s_next_cursor results); [by left |].
      destruct (page_rows max_records (rf + 1)) as [rows|] eqn:Hrows.
      * right; right. by eexists _, (rf + 1), rows.
      * left. unfold loop_top. by rewrite Hrows.
    + right; left. by eexists _, _.
  - by left.
Qed.

(** The top of the loop of [search_all]: the request, then the parsing
    of the whole page, then the first item. *)
Lemma loop_top_structured cursor rf rows w :
  page_rows max_records rf = Some rows ->
  loop_top_str cursor rf w
  = (match (search_r (page_copy q rows w).1 cursor ∅ (page_copy q rows w).2).1 with
     | Raise e => (Raised e, GenClosed)
     | Ret r =>
         match parse r with
         | Raise e => (Raised e, GenClosed)
         | Ret results =>
             match s_items results with
             | item :: rest => (Yield item, GenSuspended cursor rf results rest)
             | [] => (StopIteration, GenClosed)
             end
         end
     end, after_fetch float_str self q rows cursor w).
Proof.
  intros H. unfold loop_top. rewrite H.
  change (deepcopy q w) with ((deepcopy q w).1, (deepcopy q w).2). cbv beta iota.
  fold (page_copy q rows w). rewrite search_cases, search_raw_world.
  fold (page_fetch_request float_str self q rows cursor w).
  fold (after_fetch float_str self q rows cursor w).
  destruct (search_r _ _ _ _).1 as [r|e]; [| done].
  destruct (parse r) as [results|e]; [| done].
  by destruct (s_items results).
Qed.

Lemma next_structured_sent gs w request :
  sent (next_str gs w).2 = sent w ++ [request] ->
  exists cursor rf rows,
    page_rows max_records rf = Some rows
    /\ next_str gs w = loop_top_str cursor rf w
    /\ request = page_fetch_request float_str self q rows cursor w.
Proof.
  intros Hsent.
  destruct (next_structured_cases gs w)
    as [Hstop | [(x & gs' & Hyield) | (cursor & rf & rows & Hrows & Htop)]].
  - rewrite Hstop in Hsent. cbn in Hsent.
    rewrite <- (app_nil_r (sent w)) in Hsent at 1.
    by apply app_inv_head in Hsent.
  - rewrite Hyield in Hsent. cbn in Hsent.
    rewrite <- (app_nil_r (sent w)) in Hsent at 1.
    by apply app_inv_head in Hsent.
  - exists cursor, rf, rows. repeat split; [done.. |].
    rewrite Htop, (loop_top_structured _ _ _ _ Hrows) in Hsent.
    cbn in Hsent. apply app_inv_head in Hsent. by inversion Hsent.
Qed.

Lemma next_structured_unparsed gs w request e :
  sent (next_str gs w).2 = sent w ++ [request] ->
  is_success (http_get (sent w) request) = true ->
  first_failure item_from_dict
    (default [] (js_items (json (http_get (sent w) request)))) e ->
  (next_str gs w).1 = (Raised e, GenClosed).
Proof.
  intros Hsent Hok Hbad.
  destruct (next_structured_sent gs w request Hsent)
    as (cursor & rf & rows & Hrows & Htop & ->).
  rewrite Htop, (loop_top_structured _ _ _ _ Hrows). cbn [fst].
  destruct (search_raw_success float_str http_get self (page_copy q rows w).1
              cursor ∅ (page_copy q rows w).2 Hok) as (r & -> & Hi & _).
  assert (Hraise : parse r = Raise e).
  { apply from_search_results_raise. left. by rewrite Hi. }
  by rewrite Hraise.
Qed.

End Unparsed.

(** X10. [search_all] is [search_all_raw] with every page parsed as a
    whole when it is fetched.  Against a remote all of whose records
    parse, a consumer of any patience receives from [search_all] the
    parsed items of what [search_all_raw] yields, in the same order; the
    iteration ends the same way, with the same exception if the
    transport fails, and the same requests are sent.  When the page a
    call of [next()] fetches holds an item that does not parse, that
    call raises the exception of the first such item and the generator
    is finished: no item of that page is yielded, not even those before
    the one that does not parse. *)
Theorem X10_search_all_parses_search_all_raw q (max_records : option Z) :
  (forall (parse_item : Item -> EItem) (parse_facet : Item -> EFacet),
      (forall answered request,
          Forall (fun x => item_from_dict x = Ret (parse_item x))
                 (default [] (js_items (json (http_get answered request))))) ->
      (forall answered request,
          Forall (fun x => facet_from_dict x = Ret (parse_facet x))
                 (default [] (js_facets (json (http_get answered request))))) ->
      forall fuel g w,
        drain (fun page_query cursor =>
                 search float_str http_get item_from_dict facet_from_dict self
                        page_query cursor ∅)
              s_items s_next_cursor q max_records fuel
              (parse_state parse_item parse_facet g) w
        = let '(xs, e, w') :=
            drain (fun page_query cursor =>
                     search_raw float_str http_get self page_query cursor ∅)
                  items next_cursor q max_records fuel g w in
          (map parse_item xs, parse_end parse_item parse_facet e, w'))
  /\ (forall gs w request e,
        sent (search_all float_str http_get item_from_dict facet_from_dict
                         self q max_records gs w).2 = sent w ++ [request] ->
        is_success (http_get (sent w) request) = true ->
        first_failure item_from_dict
          (default [] (js_items (json (http_get (sent w) request)))) e ->
        (search_all float_str http_get item_from_dict facet_from_dict
                    self q max_records gs w).1 = (Raised e, GenClosed)).
Proof.
  split.
  - intros parse_item parse_facet Hi Hf fuel g w. by apply drain_parsed.
  - intros gs w request e. apply next_structured_unparsed.
Qed.

End Structured.

(** ** The budget, the requests and the cursor, for any remote *)

Section AnyRemote.

Context {Float Item : Type}.
Variable float_str : Float -> string.
Variable http_get : list HttpRequest -> HttpRequest -> @Response Item.
Variable self : EuropeanaClient.
Variable q : loc.
Variable max_records : option Z.

Implicit Types (w : @World Float) (g : GenState (@SearchResults Item) Item).

Abbreviation next_any := (search_all_raw float_str http_get self q max_records).
Abbreviation drain_any :=
  (drain (fun page_query cursor =>
            search_raw float_str http_get self page_query cursor ∅)
         items next_cursor q max_records).

(** Where a call fetches, the count it fetches with is the number of
    items yielded. *)
Lemma fetch_point_yielded g (cursor : string) (rf : Z) :
  fetch_point g cursor rf -> rf = yielded g.
Proof.
  intros [(-> & _ & ->) | (c0 & rf0 & results & -> & -> & _)]; reflexivity.
Qed.

(** A call that yields counts one more item. *)
Lemma next_yield_counts g w x g' w' :
  next_any g w = (Yield x, g', w') -> yielded g' = yielded g + 1.
Proof.
  intros Hnext.
  destruct (next_raw_cases float_str http_get self q max_records g w)
    as [Hstop | [(c & rf & results & y & rest & -> & Hyield)
                | (cursor & rf & rows & Hpoint & Hrows & Htop)]].
  - rewrite Hstop in Hnext. discriminate Hnext.
  - rewrite Hyield in Hnext. by inversion Hnext.
  - apply fetch_point_yielded in Hpoint as ->.
    rewrite Htop in Hnext.
    rewrite (loop_top_unfold float_str http_get self q max_records _ _ _ _ Hrows)
      in Hnext.
    destruct (search_raw _ _ _ _ _ _ _) as [[results|e] w3]; [| discriminate Hnext].
    destruct (items results); inversion Hnext. reflexivity.
Qed.

(** With a positive budget used up, a call stops and sends nothing. *)
Lemma next_budget_used g w (m : Z) :
  max_records = Some m -> 0 < m -> m <= yielded g ->
  next_any g w = (StopIteration, GenClosed, w).
Proof.
  intros Hm Hpos Hused.
  destruct g as [|c rf results rest|]; cbn [yielded] in Hused; [lia | | lia].
  unfold search_all_raw, next, resume.
  assert (Hb : budget_reached max_records (rf + 1) = true).
  { unfold budget_reached, budget_truthy. rewrite Hm.
    cbn [default from_option id].
    apply andb_true_iff. split; [apply negb_true_iff, Z.eqb_neq; lia |].
    apply Z.leb_le. lia. }
  by rewrite Hb.
Qed.

Lemma drain_budget_bound (m : Z) (fuel : nat) g w :
  max_records = Some m -> 0 < m -> yielded g <= m ->
  Z.of_nat (length (drain_any fuel g w).1.1) <= m - yielded g.
Proof.
  intros Hm Hpos. revert g w.
  induction fuel as [|fuel IH]; intros g w Hle; cbn [drain]; [cbn; lia |].
  change (next _ items next_cursor q max_records g w) with (next_any g w).
  destruct (next_any g w) as [[[x| |e] g'] w'] eqn:Hnext; [| cbn; lia..].
  assert (Hlt : yielded g < m).
  { destruct (Z.lt_ge_cases (yielded g) m) as [Hlt | Hge]; [done |].
    rewrite (next_budget_used g w m Hm Hpos Hge) in Hnext. discriminate Hnext. }
  apply next_yield_counts in Hnext.
  specialize (IH g' w').
  destruct (drain_any fuel g' w') as [[xs e] w''].
  cbn [fst length] in *. lia.
Qed.

Lemma drain_budget_ends (m : Z) (fuel : nat) g w :
  max_records = Some m -> 0 < m -> yielded g <= m ->
  (Z.to_nat (m - yielded g) < fuel)%nat ->
  forall g', (drain_any fuel g w).1.2 <> StillRunning g'.
Proof.
  intros Hm Hpos. revert g w.
  induction fuel as [|fuel IH]; intros g w Hle Hfuel g0; [lia |].
  cbn [drain].
  change (next _ items next_cursor q max_records g w) with (next_any g w).
  destruct (next_any g w) as [[[x| |e] g'] w'] eqn:Hnext; [| done..].
  assert (Hlt : yielded g < m).
  { destruct (Z.lt_ge_cases (yielded g) m) as [Hlt | Hge]; [done |].
    rewrite (next_budget_used g w m Hm Hpos Hge) in Hnext. discriminate Hnext. }
  apply next_yield_counts in Hnext.
  specialize (IH g' w').
  destruct (drain_any fuel g' w') as [[xs e] w''].
  cbn [fst snd] in *. apply IH; lia.
Qed.

(** X11. With a positive budget and any remote whatever, a consumer never
    receives more than [max_records] items, however long it keeps
    calling, and after at most [max_records + 1] calls of [next()] the
    generator has finished, by stopping or by raising. *)
Theorem X11_budget_bounds_and_ends (m : Z) (fuel : nat) w :
  max_records = Some m -> 0 < m ->
  Z.of_nat (length (drain (fun page_query cursor =>
           search_raw float_str http_get self page_query cursor ∅)
        items next_cursor q max_records fuel GenCreated w).1.1) <= m
  /\ ((Z.to_nat m < fuel)%nat ->
      forall g', (drain (fun page_query cursor =>
           search_raw float_str http_get self page_query cursor ∅)
        items next_cursor q max_records fuel GenCreated w).1.2 <> StillRunning g').
Proof.
  intros Hm Hpos. split.
  - pose proof (drain_budget_bound m fuel GenCreated w Hm Hpos) as Hb.
    cbn [yielded] in Hb. lia.
  - intros Hfuel. apply (drain_budget_ends m); cbn [yielded]; try done; try lia.
Qed.

(** One call of [next()] sends at most one request. *)
Lemma next_sent_length g w :
  (length (sent (next_any g w).2) <= length (sent w) + 1)%nat.
Proof.
  destruct (next_world float_str http_get self q max_records g w)
    as [-> | (rows & cursor & ->)]; [lia |].
  cbn. rewrite length_app. cbn. lia.
Qed.

(** X12. No request runs ahead of the consumer: whatever the remote and
    the budget, the requests sent while a consumer receives [n] items
    are at most [n + 1], and a call of [next()] that hands over an item
    still buffered sends none. *)
Theorem X12_requests_follow_consumption (fuel : nat) g w :
  (length (sent (drain (fun page_query cursor =>
           search_raw float_str http_get self page_query cursor ∅)
        items next_cursor q max_records fuel g w).2)
   <= length (sent w) + length (drain (fun page_query cursor =>
           search_raw float_str http_get self page_query cursor ∅)
        items next_cursor q max_records fuel g w).1.1 + 1)%nat
  /\ (forall cursor rf results x rest,
        g = GenSuspended cursor rf results (x :: rest) ->
        sent (search_all_raw float_str http_get self q max_records g w).2 = sent w).
Proof.
  split.
  - revert g w. induction fuel as [|fuel IH]; intros g w; cbn [drain]; [cbn; lia |].
    change (next _ items next_cursor q max_records g w) with (next_any g w).
    pose proof (next_sent_length g w) as Hone.
    destruct (next_any g w) as [[[x| |e] g'] w']; cbn [fst snd] in *;
      [| cbn; lia..].
    specialize (IH g' w').
    destruct (drain_any fuel g' w') as [[xs e] w'']. cbn [fst snd length] in *. lia.
  - intros cursor rf results x rest ->.
    unfold search_all_raw, next, resume.
    by destruct (budget_reached max_records (rf + 1)).
Qed.

(** X13. Cursor advancement.  The first request carries the start cursor
    [*].  Any later request is sent on resuming after the last item of a
    page that had items and a non-empty cursor, and carries exactly that
    cursor. *)
Theorem X13_cursor_advances g w r :
  sent (search_all_raw float_str http_get self q max_records g w).2 = sent w ++ [r] ->
  (g = GenCreated /\ req_params r !! "cursor" = Some "*")
  \/ (exists cursor rf results next_c,
        g = GenSuspended cursor rf results []
        /\ next_cursor results = Some next_c
        /\ next_c <> EmptyString
        /\ items results <> []
        /\ req_params r !! "cursor" = Some next_c).
Proof.
  intros Hsent.
  destruct (next_raw_request_rows float_str http_get self q max_records g w r Hsent)
    as (cursor & rf & rows & Hpoint & _ & _ & _ & Hcur).
  destruct Hpoint as [(-> & -> & _) | (c0 & rf0 & results & -> & _ & -> & Hlast)].
  - by left.
  - right. unfold last_page in Hlast.
    apply orb_false_iff in Hlast as [Hc Hi]. apply negb_false_iff in Hc.
    destruct (next_cursor results) as [next_c|] eqn:Hnc; [| discriminate Hc].
    exists c0, rf0, results, next_c. cbn in Hc.
    split; [done |]. split; [done |]. split; [by apply str_truthy_iff |].
    split; [| done].
    intros Hnil. rewrite Hnil in Hi. discriminate Hi.
Qed.

(** X14. With a non-zero budget a request asks for the smaller of 100 and
    what remains of the budget, which is positive: the budget less the
    number of items yielded so far. *)
Theorem X14_rows_follow_budget (m : Z) g w r :
  max_records = Some m -> m <> 0 ->
  sent (search_all_raw float_str http_get self q max_records g w).2 = sent w ++ [r] ->
  0 < m - yielded g
  /\ req_params r !! "rows" = Some (Py.str_int (Z.min 100 (m - yielded g))).
Proof.
  intros Hm Hnz Hsent.
  destruct (next_raw_request_rows float_str http_get self q max_records g w r Hsent)
    as (cursor & rf & rows & Hpoint & Hrows & _ & Hr & _).
  apply fetch_point_yielded in Hpoint as ->.
  rewrite page_rows_closed_form, Hm in Hrows.
  apply Z.eqb_neq in Hnz. rewrite Hnz in Hrows.
  destruct (m - yielded g <=? 0) eqn:Hrem; [discriminate Hrows |].
  apply Z.leb_gt in Hrem. inversion Hrows; subst rows. by split.
Qed.

End AnyRemote.

(** ** Entity URIs *)

(** The newline character, the one character the regular expression's
    dot does not match. *)
Definition newline : string := String "010"%char EmptyString.

(** [s[len(p):]] when [s] starts with [p]. *)
Fixpoint strip_prefix (p s : string) : option string :=
  match p with
  | EmptyString => Some s
  | String a p' =>
      match s with
      | EmptyString => None
      | String b s' => if Ascii.eqb a b then strip_prefix p' s' else None
      end
  end.

(** The longest prefix without a newline: what a greedy [.*] matches at
    the start of a string. *)
Fixpoint take_line (s : string) : string :=
  match s with
  | EmptyString => EmptyString
  | String c s' =>
      if Ascii.eqb c "010"%char then EmptyString else String c (take_line s')
  end.

Definition EUROPEANA_DATA : string := "http://data.europeana.eu/".

(** [re.match(r"http://data\.europeana\.eu/(.+)", s)], as its group 1:
    after the literal prefix, one or more characters other than a
    newline, as many as there are. *)
Definition match_entity_uri (s : string) : option string :=
  match strip_prefix EUROPEANA_DATA s with
  | Some rest =>
      match take_line rest with
      | EmptyString => None
      | group1 => Some group1
      end
  | None => None
  end.

(** [_extract_entity_path(entity_uri)]. *)
Definition _extract_entity_path (entity_uri : string) : Res string :=
  if Py.startswith entity_uri EUROPEANA_DATA then
    match match_entity_uri entity_uri with
    | Some group1 => Ret group1
    | None =>
        Raise (ValueError ("Invalid Europeana entity URI format: " +:+ entity_uri))
    end
  else if Py.contains entity_uri "/" then Ret entity_uri
  else Raise (ValueError ("Invalid entity URI or path format: " +:+ entity_uri)).

(** [s.replace(old, empty)] for a non-empty [old] and the empty string
    [empty]: the occurrences of [old] are removed from left to right,
    without overlap.  [skip] counts the
    characters of the occurrence being removed that are still ahead. *)
Fixpoint remove_all_from (old : string) (skip : nat) (s : string) : string :=
  match s with
  | EmptyString => EmptyString
  | String c s' =>
      match skip with
      | S k => remove_all_from old k s'
      | O =>
          if Py.startswith s old
          then remove_all_from old (Nat.pred (String.length old)) s'
          else String c (remove_all_from old 0 s')
      end
  end.

Definition remove_all (old s : string) : string := remove_all_from old 0 s.

Section PlaceUri.

(** [strip] stands for [str.strip], whose set of white-space characters
    is Unicode's. *)
Variable strip : string -> string.

(** [is_place_entity_uri(uri)] for a [str]. *)
Definition is_place_entity_uri (uri : string) : bool :=
  if negb (Py.str_truthy uri) then false
  else if Py.startswith uri "http://data.europeana.eu/place/" then
    Py.str_truthy (strip (remove_all "http://data.europeana.eu/place/" uri))
  else if Py.startswith uri "place/" then
    Py.str_truthy (strip (remove_all "place/" uri))
  else false.

End PlaceUri.

Section EntityProps.

Lemma strip_prefix_app (p rest : string) : strip_prefix p (p +:+ rest) = Some rest.
Proof.
  induction p as [|a p IH]; [done |].
  rewrite append_cons. cbn [strip_prefix]. by rewrite Ascii.eqb_refl.
Qed.

Lemma take_line_no_newline (s : string) :
  Py.contains s newline = false -> take_line s = s.
Proof.
  induction s as [|c s IH]; [done |].
  rewrite contains_unfold. intros [Hhere Hrest]%orb_false_iff.
  cbn [take_line]. destruct (Ascii.eqb c "010") eqn:Hc.
  - apply Ascii.eqb_eq in Hc as ->. by destruct s.
  - by rewrite IH.
Qed.

Lemma take_line_stops (a b : string) :
  Py.contains a newline = false -> take_line (a +:+ newline +:+ b) = a.
Proof.
  induction a as [|c a IH]; [done |].
  rewrite contains_unfold. intros [Hhere Hrest]%orb_false_iff.
  rewrite append_cons. cbn [take_line]. destruct (Ascii.eqb c "010") eqn:Hc.
  - apply Ascii.eqb_eq in Hc as ->. by destruct a.
  - by rewrite IH.
Qed.

Lemma startswith_app (p rest : string) : Py.startswith (p +:+ rest) p = true.
Proof. apply startswith_iff. by exists rest. Qed.

(** X16. [_extract_entity_path] undoes the prefixing of a path with the
    data domain, for a path that is not empty and has no newline; what
    follows a newline in a full URI is silently dropped; a full URI with
    nothing, or with a newline, right after the domain is rejected; any
    other string is returned as it is when it has a slash and rejected
    when it has none. *)
Theorem X16_extract_entity_path :
  (forall c path,
      Py.contains (String c path) newline = false ->
      _extract_entity_path (EUROPEANA_DATA +:+ String c path) = Ret (String c path))
  /\ (forall c path dropped,
        Py.contains (String c path) newline = false ->
        _extract_entity_path
          (EUROPEANA_DATA +:+ String c path +:+ newline +:+ dropped)
        = Ret (String c path))
  /\ (forall rest,
        _extract_entity_path (EUROPEANA_DATA +:+ newline +:+ rest)
        = Raise (ValueError ("Invalid Europeana entity URI format: "
                             +:+ EUROPEANA_DATA +:+ newline +:+ rest)))
  /\ _extract_entity_path EUROPEANA_DATA
     = Raise (ValueError ("Invalid Europeana entity URI format: " +:+ EUROPEANA_DATA))
  /\ (forall uri,
        Py.startswith uri EUROPEANA_DATA = false ->
        _extract_entity_path uri
        = if Py.contains uri "/" then Ret uri
          else Raise (ValueError ("Invalid entity URI or path format: " +:+ uri))).
Proof.
  split; [| split; [| split; [| split]]].
  - intros c path Hnl. unfold _extract_entity_path, match_entity_uri.
    rewrite startswith_app, strip_prefix_app, take_line_no_newline by done.
    reflexivity.
  - intros c path dropped Hnl. unfold _extract_entity_path, match_entity_uri.
    rewrite startswith_app, strip_prefix_app.
    rewrite (take_line_stops (String c path) dropped Hnl). reflexivity.
  - intros rest. unfold _extract_entity_path, match_entity_uri.
    rewrite startswith_app, strip_prefix_app. reflexivity.
  - reflexivity.
  - intros uri Hno. unfold _extract_entity_path. by rewrite Hno.
Qed.

(** A string that starts with [place/] has a slash. *)
Lemma place_path_has_slash (rest : string) : Py.contains ("place/" +:+ rest) "/" = true.
Proof. apply contains_iff. by exists "place", rest. Qed.

(** X17. Whatever [strip] removes, a string that [is_place_entity_uri]
    accepts is one [_extract_entity_path] accepts, and the path extracted
    starts with [place/]; the empty string is not accepted. *)
Theorem X17_place_uri_has_entity_path (strip : string -> string) (uri : string) :
  is_place_entity_uri strip EmptyString = false
  /\ (is_place_entity_uri strip uri = true ->
      exists rest, _extract_entity_path uri = Ret ("place/" +:+ rest)).
Proof.
  split; [done |].
  unfold is_place_entity_uri.
  destruct (negb (Py.str_truthy uri)); [done |].
  destruct (Py.startswith uri "http://data.europeana.eu/place/") eqn:Hfull.
  - intros _. apply startswith_iff in Hfull as [rest ->].
    change ("http://data.europeana.eu/place/" +:+ rest)
      with (EUROPEANA_DATA +:+ "place/" +:+ rest).
    unfold _extract_entity_path, match_entity_uri.
    rewrite startswith_app, strip_prefix_app.
    change ("place/" +:+ rest) with (String "p" ("lace/" +:+ rest)).
    cbn [take_line Ascii.eqb Bool.eqb]. eexists.
    change (String "p" (take_line ("lace/" +:+ rest)))
      with ("p" +:+ take_line ("lace/" +:+ rest)).
    change ("lace/" +:+ rest) with (String "l" (String "a" (String "c"
              (String "e" (String "/" rest))))).
    cbn [take_line Ascii.eqb Bool.eqb]. reflexivity.
  - destruct (Py.startswith uri "place/") eqn:Hpath; [| done].
    intros _. apply startswith_iff in Hpath as [rest ->].
    exists rest. unfold _extract_entity_path.
    assert (Hno : Py.startswith ("place/" +:+ rest) EUROPEANA_DATA = false).
    { apply not_true_iff_false. intros [b Hb]%startswith_iff.
      unfold EUROPEANA_DATA in Hb. rewrite !append_cons in Hb. discriminate Hb. }
    by rewrite Hno, place_path_has_slash.
Qed.

End EntityProps.

(** ** Rights URIs of an item *)

(** A value annotated [Union[str, List[str]]]. *)
Inductive StrOrList :=
| OneStr (s : string)
| ManyStr (l : list string).

(** Truthiness of an [Optional[Union[str, List[str]]]]: [None], the
    empty string and the empty list are falsy. *)
Definition str_or_list_truthy (v : option StrOrList) : bool :=
  match v with
  | None => false
  | Some (OneStr s) => Py.str_truthy s
  | Some (ManyStr l) => match l with [] => false | _ => true end
  end.

(** [v if isinstance(v, list) else [v]]. *)
Definition as_list (v : option StrOrList) : list string :=
  match v with
  | None => []
  | Some (OneStr s) => [s]
  | Some (ManyStr l) => l
  end.

(** [WebResource]. *)
Record WebResource := {
  web_resource_edm_rights : option string;
  web_resource_dc_rights : option string;
  web_resource_dc_format : option string;
  about : option string
}.

(** The attributes of [EuropeanaItem] that [get_rights_uris] reads. *)
Record ItemRights := {
  rights : option StrOrList;
  edm_rights : option StrOrList;
  web_resources : list WebResource
}.

(** [right.startswith(("http", "https"))]. *)
Definition starts_http (right : string) : bool :=
  Py.startswith right "http" || Py.startswith right "https".

(** The loop over one list of rights: the strings that pass the test are
    appended to [uris].  The elements are strings, as the annotation of
    the attribute says, so the [isinstance(right, str)] of the source
    holds for each. *)
Definition collect_rights (uris : list string) (rights_list : list string)
  : list string :=
  fold_left (fun uris right => if starts_http right then uris ++ [right] else uris)
            rights_list uris.

(** [get_rights_uris()].  The source returns [list(set(uris))], a list of
    the distinct elements in an order it does not fix; the model returns
    the set. *)
Definition get_rights_uris (item : ItemRights) : gset string :=
  let uris : list string := [] in
  let uris := if str_or_list_truthy (rights item)
              then collect_rights uris (as_list (rights item)) else uris in
  let uris := if str_or_list_truthy (edm_rights item)
              then collect_rights uris (as_list (edm_rights item)) else uris in
  let uris :=
    fold_left (fun uris wr =>
                 match web_resource_edm_rights wr with
                 | Some r => if Py.str_truthy r && starts_http r
                             then uris ++ [r] else uris
                 | None => uris
                 end)
              (web_resources item) uris in
  list_to_set uris.

Section RightsProps.

Lemma starts_http_iff (u : string) :
  starts_http u = true <-> Py.startswith u "http" = true.
Proof.
  unfold starts_http. rewrite orb_true_iff. split; [| by left].
  intros [H | H]; [done |].
  apply startswith_iff in H as [b ->]. apply startswith_iff.
  by exists ("s" +:+ b).
Qed.

Lemma starts_http_nonempty (u : string) :
  starts_http u = true -> Py.str_truthy u = true.
Proof.
  intros [b ->]%starts_http_iff%startswith_iff. reflexivity.
Qed.

Lemma collect_rights_filter (uris rights_list : list string) :
  collect_rights uris rights_list
  = uris ++ List.filter starts_http rights_list.
Proof.
  revert uris. induction rights_list as [|r l IH]; intros uris;
    cbn [collect_rights fold_left List.filter].
  - by rewrite app_nil_r.
  - fold (collect_rights (if starts_http r then uris ++ [r] else uris) l).
    rewrite IH. destruct (starts_http r); [by rewrite <- app_assoc | done].
Qed.

Lemma collect_web_rights (uris : list string) (wrs : list WebResource) (u : string) :
  In u (fold_left (fun uris wr =>
                     match web_resource_edm_rights wr with
                     | Some r => if Py.str_truthy r && starts_http r
                                 then uris ++ [r] else uris
                     | None => uris
                     end) wrs uris)
  <-> In u uris
      \/ (starts_http u = true
          /\ exists wr, In wr wrs /\ web_resource_edm_rights wr = Some u).
Proof.
  revert uris. induction wrs as [|wr wrs IH]; intros uris; cbn [fold_left].
  - split; [by left | intros [H | (_ & wr & [] & _)]; done].
  - rewrite IH. split.
    + intros [Hin | (Hh & wr' & Hwr & Heq)].
      * destruct (web_resource_edm_rights wr) as [r|] eqn:Hr; [| by left].
        destruct (Py.str_truthy r && starts_http r) eqn:Hc; [| by left].
        apply in_app_or in Hin as [Hin | [<- | []]]; [by left |].
        right. apply andb_true_iff in Hc as [_ Hh].
        split; [done |]. exists wr. split; [by left | done].
      * right. split; [done |]. exists wr'. split; [by right | done].
    + intros [Hin | (Hh & wr' & [<- | Hwr] & Heq)].
      * left. destruct (web_resource_edm_rights wr) as [r|]; [| done].
        destruct (Py.str_truthy r && starts_http r); [| done].
        apply in_or_app. by left.
      * left. rewrite Heq, Hh, (starts_http_nonempty u Hh). cbn [andb].
        apply in_or_app. right. by left.
      * right. split; [done |]. by exists wr'.
Qed.

(** A falsy value has no element that starts with [http]. *)
Lemma falsy_has_no_http (v : option StrOrList) (u : string) :
  str_or_list_truthy v = false -> In u (as_list v) -> starts_http u = false.
Proof.
  destruct v as [[s|[|x l]]|]; cbn; try done.
  intros Hs [<- | []]. by destruct s.
Qed.

(** X18. [get_rights_uris] returns exactly the strings that start with
    [http] among the item's [rights], its [edm_rights] and the
    [web_resource_edm_rights] of its web resources, each once.  The
    truthiness tests of the source and the alternative [https] of its
    prefix test change nothing in that. *)
Theorem X18_get_rights_uris (item : ItemRights) (u : string) :
  u ∈ get_rights_uris item
  <-> Py.startswith u "http" = true
      /\ (In u (as_list (rights item))
          \/ In u (as_list (edm_rights item))
          \/ exists wr, In wr (web_resources item)
                        /\ web_resource_edm_rights wr = Some u).
Proof.
  unfold get_rights_uris. rewrite elem_of_list_to_set, list_elem_of_In.
  rewrite collect_web_rights, <- starts_http_iff.
  assert (Hone : forall v acc,
             In u (if str_or_list_truthy v
                   then collect_rights acc (as_list v) else acc)
             <-> In u acc \/ (starts_http u = true /\ In u (as_list v))).
  { intros v acc. destruct (str_or_list_truthy v) eqn:Hv.
    - rewrite collect_rights_filter, in_app_iff, filter_In. tauto.
    - split; [by left |]. intros [H | [Hh Hin]]; [done |].
      rewrite (falsy_has_no_http v u Hv Hin) in Hh. discriminate Hh. }
  rewrite !Hone. cbn [In]. tauto.
Qed.

End RightsProps.

(** ** Worked instances of the further properties *)

Lemma X2_filter_map_after_set_witness :
  dict_keys (filters_of Fixture.builder
               (set_filter "who" (VStr "Vermeer") Fixture.builder Fixture.store).2)
  = ["who"]
  /\ List.NoDup
       (dict_keys (filters_of Fixture.builder
                     (set_filter "who" (VStr "Vermeer") Fixture.builder
                                 Fixture.store).2)).
Proof.
  destruct (X2_filter_map_after_set "who" (VStr "Vermeer") Fixture.builder
              Fixture.store) as (_ & _ & _ & Hnew & Hnodup).
  split.
  - rewrite Hnew; [vm_compute; reflexivity |]. vm_compute. tauto.
  - apply Hnodup. vm_compute. constructor.
Defined.

Lemma X6_time_period_ranges_witness :
  dict_get (filters_of Fixture.builder
              (time_period (Some 1800) (Some 1900) Fixture.builder Fixture.store).2)
           "YEAR"
  = Some (VStr "[1800 TO 1900]").
Proof.
  apply (proj1 (X6_time_period_ranges 1800 1900 Fixture.builder Fixture.store
                  ltac:(lia) ltac:(lia))).
Defined.

Lemma X8_facets_sequential_and_partial_witness :
  exists w',
    facets ([AsStr "TYPE"] ++ AsStr "title" :: [AsStr "COUNTRY"])
           Fixture.builder Fixture.store
    = (Raise (ValueError (not_facetable_msg "title")), w')
    /\ list_at w' (_facets (builder_at w' Fixture.builder)) = ["TYPE"].
Proof.
  destruct (proj2 (@X8_facets_sequential_and_partial unit)
              [AsStr "TYPE"] [AsStr "COUNTRY"] (AsStr "title")
              Fixture.builder Fixture.store)
    as (w' & Hcall & Hlist).
  { repeat constructor. }
  { reflexivity. }
  exists w'. split; [exact Hcall |]. rewrite Hlist. vm_compute. reflexivity.
Defined.

(** A stand-in for [EuropeanaItem.from_dict] that raises on one record,
    as the constructor does on a record whose [aggregations] is not a
    list. *)
Definition from_dict_but_3 (n : nat) : Res nat :=
  if (n =? 3)%nat then Raise (TypeError "'NoneType' object is not iterable")
  else Ret n.

Lemma X9_search_parses_search_raw_witness :
  (search (Item := nat) (EItem := nat) (EFacet := nat)
          Fixture.float_str Fixture.three_pages
          (fun n => Ret (S n)) (fun n => Ret n) Fixture.client
          Fixture.builder "*" ∅ Fixture.store).1
  = Ret {| s_items := map S (seq 0 100); s_total_results := 300;
           s_next_cursor := Some "cursor0"; s_facets := None;
           s_query := Some EmptyString |}
  /\ (search (Item := nat) (EItem := nat) (EFacet := nat)
             Fixture.float_str Fixture.three_pages
             from_dict_but_3 (fun n => Ret n) Fixture.client
             Fixture.builder "*" ∅ Fixture.store).1
     = Raise (TypeError "'NoneType' object is not iterable").
Proof.
  split.
  - apply (proj1 (proj2 (proj2 (X9_search_parses_search_raw
                                  Fixture.float_str Fixture.three_pages
                                  (fun n => Ret (S n)) (fun n => Ret n)
                                  Fixture.client Fixture.builder "*" ∅
                                  Fixture.store))
                   _ eq_refl)).
    split; [| by repeat split].
    apply Forall2_fmap_r, Forall_Forall2_diag, Forall_forall. reflexivity.
  - apply (proj2 (proj2 (proj2 (X9_search_parses_search_raw
                                  Fixture.float_str Fixture.three_pages
                                  from_dict_but_3 (fun n => Ret n)
                                  Fixture.client Fixture.builder "*" ∅
                                  Fixture.store))
                   _ eq_refl)).
    left. exists (seq 0 3), 3%nat, (seq 4 96).
    split; [reflexivity |]. split; [| reflexivity].
    repeat constructor; by eexists.
Defined.

Lemma X10_search_all_parses_search_all_raw_witness :
  drain (fun page_query cursor =>
           search (Item := nat) (EItem := nat) (EFacet := nat)
                  Fixture.float_str Fixture.three_pages
                  (fun n => Ret (S n)) (fun n => Ret n) Fixture.client
                  page_query cursor ∅)
        s_items s_next_cursor Fixture.builder (Some 250) 400
        GenCreated Fixture.store
  = (map S (ThreePages.raw (Some 250) 400).1.1, Exhausted,
     (ThreePages.raw (Some 250) 400).2)
  /\ (search_all (Item := nat) (EItem := nat) (EFacet := nat)
                 Fixture.float_str Fixture.three_pages
                 from_dict_but_3 (fun n => Ret n) Fixture.client
                 Fixture.builder None GenCreated Fixture.store).1
     = (Raised (TypeError "'NoneType' object is not iterable"), GenClosed).
Proof.
  split.
  - pose proof (proj1 (X10_search_all_parses_search_all_raw
                  Fixture.float_str Fixture.three_pages
                  (fun n => Ret (S n)) (fun n => Ret n)
                  Fixture.client Fixture.builder (Some 250)) S id
                  (fun _ _ => proj2 (Forall_forall _ _) (fun _ _ => eq_refl))
                  (fun _ _ => proj2 (Forall_forall _ _) (fun _ _ => eq_refl))
                  400%nat GenCreated Fixture.store) as H.
    cbn [parse_state] in H. rewrite H. vm_compute. reflexivity.
  - apply (proj2 (X10_search_all_parses_search_all_raw
                    Fixture.float_str Fixture.three_pages
                    from_dict_but_3 (fun n => Ret n)
                    Fixture.client Fixture.builder None)
             GenCreated Fixture.store first_request).
    + vm_compute. reflexivity.
    + reflexivity.
    + exists (seq 0 3), 3%nat, (seq 4 96).
      split; [reflexivity |]. split; [| reflexivity].
      repeat constructor; by eexists.
Defined.

Lemma X11_budget_bounds_and_ends_witness :
  Z.of_nat (length (ThreePages.raw (Some 250) 400).1.1) <= 250
  /\ forall g', (ThreePages.raw (Some 250) 400).1.2 <> StillRunning g'.
Proof.
  destruct (X11_budget_bounds_and_ends Fixture.float_str Fixture.three_pages
              Fixture.client Fixture.builder (Some 250) 250 400 Fixture.store
              eq_refl ltac:(lia)) as [Hbound Hends].
  split; [exact Hbound |]. apply Hends. vm_compute. lia.
Defined.

Lemma X12_requests_follow_consumption_witness :
  sent (search_all_raw Fixture.float_str Fixture.three_pages Fixture.client
          Fixture.builder None
          (GenSuspended "*" 0
             {| items := [0%nat; 1%nat]; total_results := 300;
                next_cursor := Some "cursor0"; facets_of := None; query := None |}
             [1%nat])
          Fixture.store).2
  = sent Fixture.store.
Proof.
  apply (proj2 (X12_requests_follow_consumption Fixture.float_str
                  Fixture.three_pages Fixture.client Fixture.builder None
                  0 _ Fixture.store) _ _ _ _ _ eq_refl).
Defined.

Lemma X13_cursor_advances_witness :
  req_params first_request !! "cursor" = Some "*".
Proof.
  destruct (X13_cursor_advances Fixture.float_str Fixture.three_pages
              Fixture.client Fixture.builder None GenCreated Fixture.store
              first_request)
    as [[_ Hcur] | (c & rf & res & nc & Hg & _)].
  - vm_compute. reflexivity.
  - exact Hcur.
  - discriminate Hg.
Defined.

Lemma X14_rows_follow_budget_witness :
  req_params
    (page_fetch_request Fixture.float_str Fixture.client Fixture.builder
                        (Z.min DEFAULT_ROWS 30) "*" Fixture.store) !! "rows"
  = Some (Py.str_int (Z.min 100 (30 - 0))).
Proof.
  apply (X14_rows_follow_budget Fixture.float_str Fixture.three_pages
           Fixture.client Fixture.builder (Some 30) 30 GenCreated Fixture.store).
  - reflexivity.
  - lia.
  - vm_compute. reflexivity.
Defined.

Lemma X16_extract_entity_path_witness :
  _extract_entity_path "http://data.europeana.eu/place/92" = Ret "place/92"
  /\ _extract_entity_path "place/92" = Ret "place/92"
  /\ _extract_entity_path "92"
     = Raise (ValueError "Invalid entity URI or path format: 92").
Proof.
  destruct X16_extract_entity_path as (Hfull & _ & _ & _ & Hother).
  split; [| split].
  - apply (Hfull "p"%char "lace/92"). reflexivity.
  - apply (Hother "place/92"). reflexivity.
  - apply (Hother "92"). reflexivity.
Defined.

Lemma X17_place_uri_has_entity_path_witness :
  exists rest,
    _extract_entity_path "http://data.europeana.eu/place/92"
    = Ret ("place/" +:+ rest).
Proof.
  apply (proj2 (X17_place_uri_has_entity_path (fun s => s)
                  "http://data.europeana.eu/place/92")).
  reflexivity.
Defined.

Lemma X18_get_rights_uris_witness :
  RightsCategories.PDM_URI
  ∈ get_rights_uris
      {| rights := Some (ManyStr [RightsCategories.PDM_URI; "in copyright"]);
         edm_rights := None; web_resources := [] |}.
Proof.
  apply X18_get_rights_uris. split; [reflexivity |]. left. left. reflexivity.
Defined.

(** ** The items yielded are the items of the pages *)

Section PagesAndItems.

Context {Float Item : Type}.
Variable float_str : Float -> string.
Variable http_get : list HttpRequest -> HttpRequest -> @Response Item.
Variable self : EuropeanaClient.
Variable q : loc.
Variable max_records : option Z.

Implicit Types (w : @World Float) (g : GenState (@SearchResults Item) Item).

Abbreviation next_pg := (search_all_raw float_str http_get self q max_records).
Abbreviation drain_pg :=
  (drain (fun page_query cursor =>
            search_raw float_str http_get self page_query cursor ∅)
         items next_cursor q max_records).

(** The items of the pages with which the remote answers the requests
    [new], sent in that order after the requests [answered]; a failed
    answer carries no page. *)
Fixpoint fetched_items (answered new : list HttpRequest) : list Item :=
  match new with
  | [] => []
  | r :: new' =>
      (if is_success (http_get answered r)
       then default [] (js_items (json (http_get answered r)))
       else [])
      ++ fetched_items (answered ++ [r]) new'
  end.

(** The items of the current page that a suspended generator has still
    to hand over. *)
Definition buffered g : list Item :=
  match g with
  | GenSuspended _ _ _ rest => rest
  | _ => []
  end.

(** What a consumer received, against what was fetched for it. *)
Definition faithful g w (xs : list Item)
    (e : DrainEnd (@SearchResults Item) Item) (w' : @World Float) : Prop :=
  exists new,
    sent w' = sent w ++ new
    /\ xs `prefix_of` (buffered g ++ fetched_items (sent w) new)
    /\ (budget_truthy max_records = false -> e = Exhausted ->
        xs = buffered g ++ fetched_items (sent w) new).

Lemma faithful_nothing g w e :
  (budget_truthy max_records = false -> e = Exhausted -> buffered g = []) ->
  faithful g w [] e w.
Proof.
  intros Hb. exists []. rewrite !app_nil_r. split; [done |].
  split; [apply prefix_nil |]. intros Hnb He. by rewrite Hb.
Qed.

Lemma page_rows_none_budget (rf : Z) :
  page_rows max_records rf = None -> budget_truthy max_records = true.
Proof. unfold page_rows. by destruct (budget_truthy max_records). Qed.

Lemma budget_reached_budget (rf : Z) :
  budget_reached max_records rf = true -> budget_truthy max_records = true.
Proof. unfold budget_reached. by intros [H _]%andb_true_iff. Qed.

(** A consumer that starts at the top of the loop. *)
Lemma drain_from_top (fuel : nat) g w (cursor : string) (rf : Z) :
  (forall g' w', faithful g' w' (drain_pg fuel g' w').1.1
                          (drain_pg fuel g' w').1.2 (drain_pg fuel g' w').2) ->
  buffered g = [] ->
  next_pg g w
  = loop_top (fun page_query cursor =>
                search_raw float_str http_get self page_query cursor ∅)
             items q max_records cursor rf w ->
  faithful g w (drain_pg (S fuel) g w).1.1 (drain_pg (S fuel) g w).1.2
           (drain_pg (S fuel) g w).2.
Proof.
  intros IH Hbuf Hnext. cbn [drain].
  change (next _ items next_cursor q max_records g w) with (next_pg g w).
  rewrite Hnext.
  destruct (page_rows max_records rf) as [rows|] eqn:Hrows.
  - set (r := page_fetch_request float_str self q rows cursor w).
    destruct (is_success (http_get (sent w) r)) eqn:Hok.
    + destruct (loop_top_success float_str http_get self q max_records
                  cursor rf rows w Hrows Hok) as (results & Hi & _ & ->).
      fold r in Hi.
      destruct (items results) as [|x rest] eqn:Hitems; cbn [fst snd].
      * exists [r]. split; [done |]. cbn [fetched_items]. fold r.
        rewrite Hok, <- Hi, Hbuf. cbn [app]. split; [apply prefix_nil | done].
      * specialize (IH (GenSuspended cursor rf results rest)
                       (after_fetch float_str self q rows cursor w)).
        destruct (drain_pg fuel _ _) as [[xs e] w''].
        destruct IH as (new & Hsent & Hpre & Heq). cbn [fst snd buffered] in *.
        exists (r :: new). cbn [fetched_items]. fold r.
        rewrite Hok, <- Hi, Hbuf.
        change (sent (after_fetch float_str self q rows cursor w))
          with (sent w ++ [r]) in *.
        split; [by rewrite Hsent, <- app_assoc |]. cbn [app].
        split; [by apply prefix_cons |].
        intros Hnb He. by rewrite (Heq Hnb He).
    + rewrite (loop_top_failure float_str http_get self q max_records
                 cursor rf rows w Hrows Hok). cbn [fst snd].
      exists [r]. split; [done |]. split; [apply prefix_nil | done].
  - rewrite (loop_top_break float_str http_get self q max_records
               cursor rf w Hrows). cbn [fst snd].
    apply faithful_nothing. intros Hnb _.
    apply page_rows_none_budget in Hrows. congruence.
Qed.

Lemma drain_faithful (fuel : nat) g w :
  faithful g w (drain_pg fuel g w).1.1 (drain_pg fuel g w).1.2 (drain_pg fuel g w).2.
Proof.
  revert g w. induction fuel as [|fuel IH]; intros g w.
  - cbn. exists []. rewrite !app_nil_r. split; [done |].
    split; [apply prefix_nil | done].
  - destruct g as [|cursor rf results rest|].
    + by apply (drain_from_top fuel GenCreated w "*" 0 IH).
    + destruct (budget_reached max_records (rf + 1)) eqn:Hbudget.
      { cbn [drain]; unfold next, resume. rewrite Hbudget. cbn [fst snd].
        exists []. rewrite !app_nil_r. split; [done |].
        split; [apply prefix_nil |]. intros Hnb _.
        apply budget_reached_budget in Hbudget. congruence. }
      destruct rest as [|x rest].
      * destruct (last_page items next_cursor results) eqn:Hlast.
        { cbn [drain]; unfold next, resume. rewrite Hbudget, Hlast. cbn [fst snd].
          by apply faithful_nothing. }
        apply (drain_from_top fuel _ w
                 (default EmptyString (next_cursor results)) (rf + 1) IH);
          [done |].
        unfold search_all_raw, next, resume. by rewrite Hbudget, Hlast.
      * cbn [drain]; unfold next, resume. rewrite Hbudget.
        specialize (IH (GenSuspended cursor (rf + 1) results rest) w).
        destruct (drain_pg fuel _ w) as [[xs e] w''].
        destruct IH as (new & Hsent & Hpre & Heq). cbn [fst snd buffered] in *.
        exists new. split; [done |]. cbn [app].
        split; [by apply prefix_cons |].
        intros Hnb He. by rewrite (Heq Hnb He).
    + cbn. by apply faithful_nothing.
Qed.

(** X15. Nothing is invented, reordered or skipped.  Whatever the remote,
    the items a consumer has received are an initial part of the items of
    the pages fetched for it, in the order of the pages; and when there
    is no budget and the generator has stopped, they are all of them. *)
Theorem X15_yields_are_the_pages (fuel : nat) w :
  exists new,
    sent (drain (fun page_query cursor =>
           search_raw float_str http_get self page_query cursor ∅)
        items next_cursor q max_records fuel GenCreated w).2 = sent w ++ new
    /\ (drain (fun page_query cursor =>
           search_raw float_str http_get self page_query cursor ∅)
        items next_cursor q max_records fuel GenCreated w).1.1 `prefix_of` fetched_items (sent w) new
    /\ (budget_truthy max_records = false ->
        (drain (fun page_query cursor =>
           search_raw float_str http_get self page_query cursor ∅)
        items next_cursor q max_records fuel GenCreated w).1.2 = Exhausted ->
        (drain (fun page_query cursor =>
           search_raw float_str http_get self page_query cursor ∅)
        items next_cursor q max_records fuel GenCreated w).1.1 = fetched_items (sent w) new).
Proof. exact (drain_faithful fuel GenCreated w). Qed.

End PagesAndItems.

Lemma X15_yields_are_the_pages_witness :
  exists new,
    sent (ThreePages.raw None 400).2 = sent Fixture.store ++ new
    /\ (ThreePages.raw None 400).1.1
       = fetched_items Fixture.three_pages (sent Fixture.store) new.
Proof.
  destruct (X15_yields_are_the_pages Fixture.float_str Fixture.three_pages
              Fixture.client Fixture.builder None 400 Fixture.store)
    as (new & Hsent & _ & Hall).
  exists new. split; [exact Hsent |]. apply Hall.
  - reflexivity.
  - vm_compute. reflexivity.
Defined.
